(** * ERP Orchestrator API: the task store and the conversation gate

    A shallow embedding of [main.py]: the pydantic models with their field
    constraints, the task routes over a MongoDB collection, and the
    keyword-driven chat responder; followed by the properties of the
    specification that concern them.

    Conventions.
    - A Python [int] is a [Z]; a [str] is a [string]; a [Literal[...]] value
      is the string itself together with a membership check.
    - A JSON body, a pydantic instance with its [model_fields_set], and a
      stored document all distinguish a key that is absent from a key that
      holds [None]: this is the type [field].
    - The handlers run in a small monad over the [World] (the task collection
      and the clock).  An exception keeps the writes made before it.
    - A [datetime] is identified with its UTC ISO-8601 rendering, which is all
      the program ever does with one. *)

From Stdlib Require Import String Ascii List ZArith NArith Bool Arith Lia.
Import ListNotations.
Local Open Scope string_scope.

(* ------------------------------------------------------------------ *)
(** ** Values                                                          *)
(* ------------------------------------------------------------------ *)

(** [typing.Any]: the payload of a block, of a quick action, and of a body
    key that no model declares. *)
#[warnings="-register-all"]
Inductive Any : Type :=
| ANone
| ABool (b : bool)
| AInt (z : Z)
| AStr (s : string)
| AList (l : list Any)
| ADict (d : list (string * Any)).

(** A key of a dict or of a request body: absent, [None], or a value. *)
Inductive field (A : Type) : Type :=
| Unset
| Null
| Val (a : A).
Arguments Unset {A}.
Arguments Null {A}.
Arguments Val {A} a.

(** Attribute access on an instance whose fields default to [None]. *)
Definition get {A} (f : field A) : option A :=
  match f with Val a => Some a | _ => None end.

Definition is_set {A} (f : field A) : bool :=
  match f with Unset => false | _ => true end.

(** [d[k] = v] for every key [k] of [new], as [dict.update] and [$set] do. *)
Definition set_key {A} (old new : field A) : field A :=
  match new with Unset => old | _ => new end.

Definition datetime := string.

(** [Literal[...]]: membership in the listed strings. *)
Definition Literal (allowed : list string) (s : string) : bool :=
  existsb (String.eqb s) allowed.

(** [Field(ge=lo, le=hi)]. *)
Definition ge_le (lo hi z : Z) : bool := ((lo <=? z) && (z <=? hi))%Z.

(** A constraint on an [Optional] attribute binds only a value. *)
Definition optional {A} (ok : A -> bool) (o : option A) : bool :=
  match o with Some a => ok a | None => true end.

Definition Status : list string := ["running"; "queued"; "complete"; "error"].
Definition StepStatus : list string := ["complete"; "running"; "queued"; "error"].

(* ------------------------------------------------------------------ *)
(** ** Models                                                          *)
(* ------------------------------------------------------------------ *)

Module Step.
Record t : Type := mk {
  name : string;
  status : string;
  llm : option string;
  progress : option Z;
  duration : option string
}.

Definition validate (s : t) : bool :=
  Literal StepStatus (status s) && optional (ge_le 0 100) (progress s).
End Step.

Module BlockMetadata.
Record t : Type := mk {
  level : option Z;
  formatting : option (list string);
  language : option string;
  variant : option string;
  chartType : option string
}.

Definition validate (m : t) : bool := optional (ge_le 1 3) (level m).
End BlockMetadata.

Module Block.
Definition types : list string :=
  ["heading"; "text"; "table"; "chart"; "code"; "callout"; "image";
   "divider"; "quote"; "list"; "embed"].

Record t : Type := mk {
  id : string;
  type : string;
  content : Any;
  metadata : option BlockMetadata.t
}.

Definition validate (b : t) : bool :=
  Literal types (type b) && optional BlockMetadata.validate (metadata b).
End Block.

Module Task.
Record t : Type := mk {
  id : option string;
  name : string;
  status : string;
  progress : Z;
  user : string;
  llm : string;
  startTime : option string;
  duration : option string;
  steps : list Step.t;
  canvas : list Block.t;
  logs : list string
}.

Definition validate (x : t) : bool :=
  Literal Status (status x) && ge_le 0 100 (progress x)
  && forallb Step.validate (steps x) && forallb Block.validate (canvas x).
End Task.

(** A request body: the keys its model declares, and the others.  No model of
    [main.py] sets [model_config], so pydantic drops the others
    ([extra='ignore']). *)
Record body (A : Type) : Type := mk_body {
  declared : A;
  extra : list (string * Any)
}.
Arguments mk_body {A} declared extra.
Arguments declared {A} b.
Arguments extra {A} b.

Module CreateTaskRequest.
Record t : Type := mk {
  name : string;
  user : string;
  llm : string;
  steps : option (list Step.t)
}.

(** The declared keys as they arrive. *)
Record keys : Type := mk_keys {
  k_name : field string;
  k_user : field string;
  k_llm : field string;
  k_steps : field (list Step.t)
}.

(** [x: str = d]: the default when absent, no [None]. *)
Definition str_default (d : string) (f : field string) : option string :=
  match f with Unset => Some d | Null => None | Val s => Some s end.

Definition model_validate (b : body keys) : option t :=
  match k_name (declared b),
        str_default "You" (k_user (declared b)),
        str_default "Claude Sonnet 4.5" (k_llm (declared b)) with
  | Val n, Some u, Some l =>
      if optional (forallb Step.validate) (get (k_steps (declared b)))
      then Some (mk n u l (get (k_steps (declared b))))
      else None
  | _, _, _ => None
  end.
End CreateTaskRequest.

Module UpdateTaskRequest.
(** Every attribute is [Optional] with default [None]; [Unset] against
    [Null] is the instance's [model_fields_set]. *)
Record t : Type := mk {
  name : field string;
  status : field string;
  progress : field Z;
  user : field string;
  llm : field string;
  duration : field string;
  steps : field (list Step.t);
  canvas : field (list Block.t);
  logs : field (list string);
  append_log : field string
}.

Definition validate (r : t) : bool :=
  optional (Literal Status) (get (status r))
  && optional (ge_le 0 100) (get (progress r))
  && optional (forallb Step.validate) (get (steps r))
  && optional (forallb Block.validate) (get (canvas r)).

Definition model_validate (b : body t) : option t :=
  if validate (declared b) then Some (declared b) else None.
End UpdateTaskRequest.

Module ChatMessage.
Definition roles : list string := ["user"; "assistant"].

Record t : Type := mk {
  id : option string;
  role : string;
  content : string;
  quickActions : option (list (list (string * Any)));
  timestamp : option string
}.

Definition validate (m : t) : bool := Literal roles (role m).
End ChatMessage.

Module ChatRequest.
Record t : Type := mk { history : list ChatMessage.t }.
End ChatRequest.

Module ChatResponse.
Record t : Type := mk { message : ChatMessage.t; readyForTask : bool }.
End ChatResponse.

(* ------------------------------------------------------------------ *)
(** ** Documents of the task collection                                *)
(* ------------------------------------------------------------------ *)

(** [startTime] is written as an ISO string by [create_task];
    [serialize_task] also accepts a [datetime] there. *)
Inductive time_value : Type :=
| TStr (s : string)
| TDatetime (d : datetime).

(** A document is a dict over the keys this service writes, each absent,
    [None], or a value of the type the service writes there.  The [_id] is
    the key under which the collection holds the document.  The stored ["id"]
    key is left out: [serialize_task] overwrites it before it is read.  A
    step is held with its defaults filled in, which is how every read
    (the [Task] built from the document) sees it. *)
Module Doc.
Record t : Type := mk {
  name : field string;
  status : field string;
  progress : field Z;
  user : field string;
  llm : field string;
  startTime : field time_value;
  duration : field string;
  steps : field (list Step.t);
  canvas : field (list Block.t);
  logs : field (list string);
  updated_at : field datetime
}.

Definition empty : t :=
  mk Unset Unset Unset Unset Unset Unset Unset Unset Unset Unset Unset.

(** [bool(d)] of a dict: it has a key. *)
Definition nonempty (d : t) : bool :=
  is_set (name d) || is_set (status d) || is_set (progress d)
  || is_set (user d) || is_set (llm d) || is_set (startTime d)
  || is_set (duration d) || is_set (steps d) || is_set (canvas d)
  || is_set (logs d) || is_set (updated_at d).

(** [{"$set": new}] applied to [old]. *)
Definition set (old new : t) : t :=
  mk (set_key (name old) (name new))
     (set_key (status old) (status new))
     (set_key (progress old) (progress new))
     (set_key (user old) (user new))
     (set_key (llm old) (llm new))
     (set_key (startTime old) (startTime new))
     (set_key (duration old) (duration new))
     (set_key (steps old) (steps new))
     (set_key (canvas old) (canvas new))
     (set_key (logs old) (logs new))
     (set_key (updated_at old) (updated_at new)).

Definition with_updated_at (d : t) (now : datetime) : t :=
  mk (name d) (status d) (progress d) (user d) (llm d) (startTime d)
     (duration d) (steps d) (canvas d) (logs d) (Val now).

Definition with_logs (d : t) (l : field (list string)) : t :=
  mk (name d) (status d) (progress d) (user d) (llm d) (startTime d)
     (duration d) (steps d) (canvas d) l (updated_at d).

(** [{"$push": {"logs": v}}]: MongoDB creates the array when the key is
    absent and refuses a key that holds anything but an array. *)
Definition push_logs (d : t) (v : string) : option t :=
  match logs d with
  | Unset => Some (with_logs d (Val [v]))
  | Val l => Some (with_logs d (Val (l ++ [v])%list))
  | Null => None
  end.

(** [task.model_dump()] of a [Task]; see the note on ["id"] above. *)
Definition of_Task (x : Task.t) : t :=
  mk (Val (Task.name x)) (Val (Task.status x)) (Val (Task.progress x))
     (Val (Task.user x)) (Val (Task.llm x))
     (match Task.startTime x with Some s => Val (TStr s) | None => Null end)
     (match Task.duration x with Some s => Val s | None => Null end)
     (Val (Task.steps x)) (Val (Task.canvas x)) (Val (Task.logs x))
     Unset.
End Doc.

(* ------------------------------------------------------------------ *)
(** ** Errors and the handler monad                                    *)
(* ------------------------------------------------------------------ *)

Inductive error : Type :=
| HTTPException (status_code : Z) (detail : string)
| RequestValidationError   (* FastAPI: the body fails its model *)
| ValidationError          (* pydantic, raised inside a handler *)
| WriteError               (* pymongo: the server refused the update *)
| InvalidId                (* bson, outside [oid] *)
| TypeError.

(** The status FastAPI answers with. *)
Definition http_status (e : error) : Z :=
  match e with
  | HTTPException c _ => c
  | RequestValidationError => 422
  | _ => 500
  end.

Inductive result (A : Type) : Type :=
| Ok (a : A)
| Err (e : error).
Arguments Ok {A} a.
Arguments Err {A} e.

Definition ObjectId := N.

(** The world a request runs in: the collection [db["task"]], in insertion
    order, and the number of [datetime.now] calls made so far. *)
Record World : Type := mk_World {
  db_task : list (ObjectId * Doc.t);
  ticks : nat
}.

Definition M (A : Type) : Type := World -> result A * World.

Definition ret {A} (a : A) : M A := fun w => (Ok a, w).

Definition raise {A} (e : error) : M A := fun w => (Err e, w).

Definition bind {A B} (m : M A) (k : A -> M B) : M B :=
  fun w =>
    match m w with
    | (Ok a, w') => k a w'
    | (Err e, w') => (Err e, w')
    end.

Notation "x <- m ;; k" := (bind m (fun x => k))
  (at level 61, m at next level, right associativity).
Notation "m ;; k" := (bind m (fun _ => k))
  (at level 61, right associativity).

(** An [if] statement without [else]. *)
Definition when (b : bool) (m : M unit) : M unit :=
  if b then m else ret tt.

Definition lift {A} (r : result A) : M A := fun w => (r, w).

(** [bool(s)] of a [str]. *)
Definition truthy (s : string) : bool := negb (String.eqb s EmptyString).

(* ------------------------------------------------------------------ *)
(** ** The collection                                                  *)
(* ------------------------------------------------------------------ *)

Fixpoint lookup (o : ObjectId) (c : list (ObjectId * Doc.t)) : option Doc.t :=
  match c with
  | [] => None
  | (o', d) :: c' => if N.eqb o o' then Some d else lookup o c'
  end.

(** The first document with this [_id] is replaced; none is added. *)
Fixpoint replace (o : ObjectId) (d : Doc.t) (c : list (ObjectId * Doc.t))
  : list (ObjectId * Doc.t) :=
  match c with
  | [] => []
  | (o', d') :: c' =>
      if N.eqb o o' then (o', d) :: c' else (o', d') :: replace o d c'
  end.

(** An [_id] no document of the collection has. *)
Definition new_ObjectId (c : list (ObjectId * Doc.t)) : ObjectId :=
  N.succ (fold_right N.max 0%N (map fst c)).

Definition find_one (o : ObjectId) : M (option Doc.t) :=
  fun w => (Ok (lookup o (db_task w)), w).

Definition insert_one (d : Doc.t) : M ObjectId :=
  fun w =>
    let o := new_ObjectId (db_task w) in
    (Ok o, mk_World (db_task w ++ [(o, d)])%list (ticks w)).

(** [update_one({"_id": o}, {"$push": {"logs": v}, "$set": s})]: both
    operators or neither; no match is no write and no error. *)
Definition update_one (o : ObjectId) (push : option string) (s : Doc.t)
  : M unit :=
  fun w =>
    match lookup o (db_task w) with
    | None => (Ok tt, w)
    | Some d =>
        let pushed :=
          match push with
          | None => Some d
          | Some v => Doc.push_logs d v
          end in
        match pushed with
        | None => (Err WriteError, w)
        | Some d' =>
            (Ok tt, mk_World (replace o (Doc.set d' s) (db_task w)) (ticks w))
        end
    end.

(* ------------------------------------------------------------------ *)
(** ** Helpers and routes                                              *)
(* ------------------------------------------------------------------ *)

Section Routes.

(** [bson.objectid]: [ObjectId(s)], which raises on a string that is not
    an id, and [str(o)]. *)
Variable ObjectId_of_str : string -> option ObjectId.
Variable str_of_ObjectId : ObjectId -> string.

(** What the [n]-th call of [datetime.now(timezone.utc)] returns. *)
Variable clock : nat -> datetime.

Definition utcnow : M datetime :=
  fun w => (Ok (clock (ticks w)), mk_World (db_task w) (S (ticks w))).

Definition oid (id_str : string) : M ObjectId :=
  match ObjectId_of_str id_str with
  | Some o => ret o
  | None => raise (HTTPException 400 "Invalid id")
  end.

(** A field with a default and no [Optional]: [None] is refused. *)
Definition defaulted {A} (d : A) (f : field A) : option A :=
  match f with Unset => Some d | Null => None | Val a => Some a end.

(** [Task(id=..., name=..., ...)] from the keys of a document: required
    [name], defaults for absent keys, [None] only where [Optional]. *)
Definition Task_of_keys (id : string) (startTime : field string)
    (doc : Doc.t) : result Task.t :=
  match get (Doc.name doc),
        defaulted "queued" (Doc.status doc),
        defaulted 0%Z (Doc.progress doc),
        defaulted "You" (Doc.user doc),
        defaulted "Claude Sonnet 4.5" (Doc.llm doc),
        defaulted [] (Doc.steps doc),
        defaulted [] (Doc.canvas doc),
        defaulted [] (Doc.logs doc) with
  | Some n, Some st, Some p, Some u, Some l, Some ss, Some cv, Some lg =>
      let x := Task.mk (Some id) n st p u l (get startTime)
                       (get (Doc.duration doc)) ss cv lg in
      if Task.validate x then Ok x else Err ValidationError
  | _, _, _, _, _, _, _, _ => Err ValidationError
  end.

Definition serialize_task (_id : ObjectId) (doc : Doc.t) : result Task.t :=
  let id := str_of_ObjectId _id in
  let startTime :=
    match Doc.startTime doc with
    | Val (TDatetime d) => Val d
    | Val (TStr s) => Val s
    | Null => Null
    | Unset => Unset
    end in
  Task_of_keys id startTime doc.

(** [Task(...)] from keyword arguments that are already of their types. *)
Definition Task_new (x : Task.t) : result Task.t :=
  if Task.validate x then Ok x else Err ValidationError.

(** Modelled from the spec: [create_document] of [database.py], which is
    not among the sources.  The store's [insert(record) -> id]: the record
    is inserted as it is and the id the store assigned is returned, as the
    string the caller turns back into an [ObjectId]. *)
Definition create_document (data : Task.t) : M string :=
  o <- insert_one (Doc.of_Task data) ;;
  ret (str_of_ObjectId o).

Definition default_steps : list Step.t :=
  [ Step.mk "Analyze Data" "queued" None None None;
    Step.mk "Write Summary" "queued" None None None;
    Step.mk "Gen Charts" "queued" None None None;
    Step.mk "Final Assembly" "queued" None None None ].

(** [xs or d] on an [Optional[List]]. *)
Definition or_list {A} (xs : option (list A)) (d : list A) : list A :=
  match xs with
  | Some (x :: r) => x :: r
  | _ => d
  end.

Definition create_task (req : CreateTaskRequest.t) : M Task.t :=
  now <- utcnow ;;
  task <- lift (Task_new
    (Task.mk None
             (CreateTaskRequest.name req)
             "queued"
             0%Z
             (CreateTaskRequest.user req)
             (CreateTaskRequest.llm req)
             (Some now)
             None
             (or_list (CreateTaskRequest.steps req) default_steps)
             []
             ["Task created"])) ;;
  new_id <- create_document task ;;
  match ObjectId_of_str new_id with
  | None => raise InvalidId
  | Some o =>
      doc <- find_one o ;;
      match doc with
      | None => raise TypeError
      | Some d => lift (serialize_task o d)
      end
  end.

Definition get_task (task_id : string) : M Task.t :=
  o <- oid task_id ;;
  doc <- find_one o ;;
  match doc with
  | None => raise (HTTPException 404 "Task not found")
  | Some d => lift (serialize_task o d)
  end.

(** [req.model_dump(exclude_unset=True)] without the key ["append_log"]. *)
Definition updates_of (req : UpdateTaskRequest.t) : Doc.t :=
  Doc.mk (UpdateTaskRequest.name req)
         (UpdateTaskRequest.status req)
         (UpdateTaskRequest.progress req)
         (UpdateTaskRequest.user req)
         (UpdateTaskRequest.llm req)
         Unset
         (UpdateTaskRequest.duration req)
         (UpdateTaskRequest.steps req)
         (UpdateTaskRequest.canvas req)
         (UpdateTaskRequest.logs req)
         Unset.

Definition update_task (task_id : string) (req : UpdateTaskRequest.t)
  : M Task.t :=
  let updates := updates_of req in
  match get (UpdateTaskRequest.append_log req) with
  | Some line =>
      when (truthy line)
        (o <- oid task_id ;;
         now <- utcnow ;;
         update_one o (Some line) (Doc.with_updated_at Doc.empty now))
  | None => ret tt
  end ;;
  when (Doc.nonempty updates)
    (now <- utcnow ;;
     o <- oid task_id ;;
     update_one o None (Doc.with_updated_at updates now)) ;;
  o <- oid task_id ;;
  doc <- find_one o ;;
  match doc with
  | None => raise (HTTPException 404 "Task not found")
  | Some d => lift (serialize_task o d)
  end.

(** The routes as FastAPI serves them: the body is validated against the
    handler's model before the handler runs. *)
Definition POST_api_tasks (b : body CreateTaskRequest.keys) : M Task.t :=
  match CreateTaskRequest.model_validate b with
  | Some req => create_task req
  | None => raise RequestValidationError
  end.

Definition PATCH_api_tasks (task_id : string) (b : body UpdateTaskRequest.t)
  : M Task.t :=
  match UpdateTaskRequest.model_validate b with
  | Some req => update_task task_id req
  | None => raise RequestValidationError
  end.

(* ------------------------------------------------------------------ *)
(** ** Chat (simulated assistant)                                      *)
(* ------------------------------------------------------------------ *)

(** [c.lower()] on an ASCII letter.  The text is held as its bytes; the
    four keywords looked for are ASCII, and no character outside ASCII
    lower-cases to a run of bytes that completes one of them. *)
Definition lower_ascii (c : ascii) : ascii :=
  let n := nat_of_ascii c in
  if ((65 <=? n) && (n <=? 90))%nat then ascii_of_nat (n + 32) else c.

Fixpoint lower (s : string) : string :=
  match s with
  | EmptyString => EmptyString
  | String c r => String (lower_ascii c) (lower r)
  end.

(** [needle in hay]. *)
Fixpoint str_in (needle hay : string) : bool :=
  String.prefix needle hay
  || match hay with
     | EmptyString => false
     | String _ r => str_in needle r
     end.

(** [xs[-1] if xs else None]. *)
Fixpoint last_or_None {A} (xs : list A) : option A :=
  match xs with
  | [] => None
  | [x] => Some x
  | _ :: r => last_or_None r
  end.

Definition gathering_prompt : string :=
  "Let's define what you want to create. Pick metrics and time period, then hit Create Task.".

Definition ready_reply : string :=
  "Spec looks good. Click Create Task to start the pipeline.".

Definition extensions_reply : string :=
  "Great, noted. Anything else to include? You can add competitor analysis or forecast.".

Definition echo_reply (content : string) : string :=
  "Got it: " ++ content ++ ". Which metrics and time period should we use?".

Definition quick : list (list (string * Any)) :=
  [ [("label", AStr "All metrics");
     ("value", ADict [("metrics", AStr "all")]);
     ("selected", ABool true)];
    [("label", AStr "Q4 2024");
     ("value", ADict [("period", AStr "Q4 2024")]);
     ("selected", ABool true)];
    [("label", AStr "Add charts");
     ("value", ADict [("charts", ABool true)]);
     ("selected", ABool false)] ].

Definition ChatMessage_new (m : ChatMessage.t) : result ChatMessage.t :=
  if ChatMessage.validate m then Ok m else Err ValidationError.

(** The reply text and the readiness flag, from the last entry. *)
Definition decide (last : option ChatMessage.t) : string * bool :=
  match last with
  | Some last =>
      if String.eqb (ChatMessage.role last) "user" then
        let txt := lower (ChatMessage.content last) in
        if str_in "ready" txt || str_in "create" txt then
          (ready_reply, true)
        else if str_in "metrics" txt || str_in "period" txt then
          (extensions_reply, false)
        else
          (echo_reply (ChatMessage.content last), false)
      else (gathering_prompt, false)
  | None => (gathering_prompt, false)
  end.

Definition chat (req : ChatRequest.t) : M ChatResponse.t :=
  let last := last_or_None (ChatRequest.history req) in
  let '(content, ready) := decide last in
  now <- utcnow ;;
  msg <- lift (ChatMessage_new
                 (ChatMessage.mk None "assistant" content (Some quick)
                                 (Some now))) ;;
  ret (ChatResponse.mk msg ready).

(* ------------------------------------------------------------------ *)
(** ** A concrete id codec and clock, for running the routes           *)
(* ------------------------------------------------------------------ *)

Definition hex_digits : list ascii :=
  ["0"; "1"; "2"; "3"; "4"; "5"; "6"; "7"; "8"; "9";
   "a"; "b"; "c"; "d"; "e"; "f"]%char.

Fixpoint hex_of (digits : nat) (n : N) (acc : string) : string :=
  match digits with
  | O => acc
  | S k =>
      hex_of k (n / 16)%N
             (String (nth (N.to_nat (n mod 16)%N) hex_digits "0"%char) acc)
  end.

(** [str(o)]: the twelve bytes as twenty-four hexadecimal digits. *)
Definition hex24_str (o : ObjectId) : string := hex_of 24 o EmptyString.

Definition hex_value (c : ascii) : option N :=
  let n := N_of_ascii c in
  if ((48 <=? n) && (n <=? 57))%N then Some (n - 48)%N
  else if ((97 <=? n) && (n <=? 102))%N then Some (n - 87)%N
  else if ((65 <=? n) && (n <=? 70))%N then Some (n - 55)%N
  else None.

Fixpoint hex_parse (s : string) (acc : N) : option N :=
  match s with
  | EmptyString => Some acc
  | String c r =>
      match hex_value c with
      | Some v => hex_parse r (16 * acc + v)%N
      | None => None
      end
  end.

(** [ObjectId(s)] on a string of twenty-four hexadecimal digits. *)
Definition hex24_of_str (s : string) : option ObjectId :=
  if (String.length s =? 24)%nat then hex_parse s 0%N else None.

Definition midnight (n : nat) : datetime := "2025-01-01T00:00:00+00:00".

Definition w0 : World := mk_World [] 0.

(* ------------------------------------------------------------------ *)
(** ** Vocabulary of the properties                                    *)
(* ------------------------------------------------------------------ *)

(** The conditions of the error taxonomy, by the status the client sees:
    a malformed id is a 400, a body that fails its model is a 422, both a
    client input error; a missing record is a 404. *)
Definition Bad_Request (e : error) : bool :=
  ((http_status e =? 400) || (http_status e =? 422))%Z.

Definition Not_Found (e : error) : bool := (http_status e =? 404)%Z.

(** The line [update_task] pushes: [append_log] when it is a string that
    is not empty. *)
Definition pushes (req : UpdateTaskRequest.t) : option string :=
  match get (UpdateTaskRequest.append_log req) with
  | Some line => if truthy line then Some line else None
  | None => None
  end.

Definition is_null {A} (f : field A) : bool :=
  match f with Null => true | _ => false end.

(** No key of the request holds [None] where [Task] has no [Optional]:
    the document still reads back as a [Task] after the update. *)
Definition keeps_shape (req : UpdateTaskRequest.t) : bool :=
  negb (is_null (UpdateTaskRequest.name req)
        || is_null (UpdateTaskRequest.status req)
        || is_null (UpdateTaskRequest.progress req)
        || is_null (UpdateTaskRequest.user req)
        || is_null (UpdateTaskRequest.llm req)
        || is_null (UpdateTaskRequest.steps req)
        || is_null (UpdateTaskRequest.canvas req)
        || is_null (UpdateTaskRequest.logs req)).

(** The value of a key after [$set]: the request's when it has one. *)
Definition updated {A} (f : field A) (old : A) : A :=
  match f with Val a => a | _ => old end.

(** The stored [logs] after the push of [update_task], if any. *)
Definition pushed_logs (d : Doc.t) (req : UpdateTaskRequest.t)
  : field (list string) :=
  match pushes req with
  | Some line =>
      match Doc.logs d with
      | Val l => Val (l ++ [line])%list
      | _ => Val [line]
      end
  | None => Doc.logs d
  end.

(** The [startTime] a document reads back with. *)
Definition startTime_of (doc : Doc.t) : option string :=
  match Doc.startTime doc with
  | Val (TDatetime d) => Some d
  | Val (TStr s) => Some s
  | _ => None
  end.

(** The logs a task reads back with after an update. *)
Definition logs_after (req : UpdateTaskRequest.t) (old : list string)
  : list string :=
  updated (UpdateTaskRequest.logs req)
          (match pushes req with
           | Some line => (old ++ [line])%list
           | None => old
           end).

(** The duration after an update: the one field of [Task] that takes
    [None]. *)
Definition duration_after (req : UpdateTaskRequest.t) (old : option string)
  : option string :=
  match UpdateTaskRequest.duration req with
  | Unset => old
  | Null => None
  | Val s => Some s
  end.

(** Requests that supply a single key. *)
Definition only_status (s : string) : UpdateTaskRequest.t :=
  UpdateTaskRequest.mk Unset (Val s) Unset Unset Unset Unset Unset Unset
                       Unset Unset.

Definition only_progress (p : Z) : UpdateTaskRequest.t :=
  UpdateTaskRequest.mk Unset Unset (Val p) Unset Unset Unset Unset Unset
                       Unset Unset.

(* ------------------------------------------------------------------ *)
(** ** Sample data                                                     *)
(* ------------------------------------------------------------------ *)

Definition id1 : string := "000000000000000000000001".
Definition id2 : string := "000000000000000000000002".

(** A create body that names the task and gives nothing else. *)
Definition body0 : body CreateTaskRequest.keys :=
  mk_body (CreateTaskRequest.mk_keys (Val "Quarterly report") Unset Unset
                                     Unset) [].

Definition req0 : CreateTaskRequest.t :=
  CreateTaskRequest.mk "Quarterly report" "You" "Claude Sonnet 4.5" None.

(** The same body with a progress key, which the model does not declare. *)
Definition body_with_progress : body CreateTaskRequest.keys :=
  mk_body (declared body0) [("progress", AInt (-1))].

(** The task that [body0] creates in the empty store, and the store then. *)
Definition task1 : Task.t :=
  Task.mk (Some id1) "Quarterly report" "queued" 0 "You" "Claude Sonnet 4.5"
          (Some (midnight 0)) None default_steps [] ["Task created"].

Definition w1 : World := mk_World [(1%N, Doc.of_Task task1)] 1.

Definition no_keys : UpdateTaskRequest.t :=
  UpdateTaskRequest.mk Unset Unset Unset Unset Unset Unset Unset Unset
                       Unset Unset.

Definition only_append_log (line : string) : UpdateTaskRequest.t :=
  UpdateTaskRequest.mk Unset Unset Unset Unset Unset Unset Unset Unset
                       Unset (Val line).

Definition logs_and_append_log (l : list string) (line : string)
  : UpdateTaskRequest.t :=
  UpdateTaskRequest.mk Unset Unset Unset Unset Unset Unset Unset Unset
                       (Val l) (Val line).

Definition null_name_and_steps : UpdateTaskRequest.t :=
  UpdateTaskRequest.mk Null Unset Unset Unset Unset Unset Null Unset
                       Unset Unset.

Definition user_says (text : string) : ChatMessage.t :=
  ChatMessage.mk None "user" text None None.

(* ------------------------------------------------------------------ *)
(** ** Listing                                                         *)
(* ------------------------------------------------------------------ *)

(** [get_documents] of [database.py], which is not among the sources: the
    documents it hands back, from the collection and the limit. *)
Variable get_documents :
  list (ObjectId * Doc.t) -> Z -> list (ObjectId * Doc.t).

(** [[serialize_task(d) for d in docs]]: the first document that does not
    read back raises, and no list is returned. *)
Fixpoint serialize_all (docs : list (ObjectId * Doc.t))
  : result (list Task.t) :=
  match docs with
  | [] => Ok []
  | (o, d) :: r =>
      match serialize_task o d with
      | Err e => Err e
      | Ok t =>
          match serialize_all r with
          | Err e => Err e
          | Ok ts => Ok (t :: ts)
          end
      end
  end.

Definition list_tasks (limit : Z) : M (list Task.t) :=
  docs <- (fun w => (Ok (get_documents (db_task w) limit), w)) ;;
  lift (serialize_all docs).

(** Modelled from the spec: [get_documents] of [database.py], which is not
    among the sources, as the store's [find_many(filter, limit)] with the
    empty filter: up to [limit] documents, in insertion order. *)
Definition first_documents (c : list (ObjectId * Doc.t)) (limit : Z)
  : list (ObjectId * Doc.t) :=
  firstn (Z.to_nat limit) c.

(* ------------------------------------------------------------------ *)
(** ** What a handler leaves alone                                     *)
(* ------------------------------------------------------------------ *)

(** From [w] to [w'] no document was added or removed, and every document
    but the one [target] names is as it was. *)
Definition others_kept (target : option ObjectId) (w w' : World) : Prop :=
  map fst (db_task w') = map fst (db_task w)
  /\ forall o, target <> Some o ->
               lookup o (db_task w') = lookup o (db_task w).

Definition keeps_others {A} (target : option ObjectId) (m : M A) : Prop :=
  forall w r w', m w = (r, w') -> others_kept target w w'.

(** The stamp an update leaves: the time of its last write, if it wrote. *)
Definition stamp_after (req : UpdateTaskRequest.t) (w : World)
    (old : field datetime) : field datetime :=
  match pushes req, Doc.nonempty (updates_of req) with
  | Some _, true => Val (clock (S (ticks w)))
  | None, true => Val (clock (ticks w))
  | Some _, false => Val (clock (ticks w))
  | None, false => old
  end.

(** The [datetime.now] calls an update makes: one for each write. *)
Definition writes_of (req : UpdateTaskRequest.t) : nat :=
  (match pushes req with Some _ => 1 | None => 0 end)
  + (if Doc.nonempty (updates_of req) then 1 else 0).

(** A task whose stored name was set to null by an earlier update. *)
Definition w_null_name : World :=
  mk_World
    [(1%N, Doc.mk Null (Val "queued") (Val 0%Z) (Val "You")
                  (Val "Claude Sonnet 4.5")
                  (Val (TStr (midnight 0))) Null (Val default_steps)
                  (Val []) (Val ["Task created"]) (Val (midnight 1)))]
    2.

(** Two tasks in the store. *)
Definition task2 : Task.t :=
  Task.mk (Some id2) "Forecast" "queued" 0 "You" "Claude Sonnet 4.5"
          (Some (midnight 1)) None default_steps [] ["Task created"].

Definition w2 : World :=
  mk_World [(1%N, Doc.of_Task task1); (2%N, Doc.of_Task task2)] 2.

Definition body_forecast : body CreateTaskRequest.keys :=
  mk_body (CreateTaskRequest.mk_keys (Val "Forecast") Unset Unset Unset) [].

Definition req_forecast : CreateTaskRequest.t :=
  CreateTaskRequest.mk "Forecast" "You" "Claude Sonnet 4.5" None.

Definition only_name (n : field string) : UpdateTaskRequest.t :=
  UpdateTaskRequest.mk n Unset Unset Unset Unset Unset Unset Unset
                       Unset Unset.

Definition only_canvas (bs : list Block.t) : UpdateTaskRequest.t :=
  UpdateTaskRequest.mk Unset Unset Unset Unset Unset Unset Unset (Val bs)
                       Unset Unset.

Definition heading (level : Z) : Block.t :=
  Block.mk "b1" "heading" (AStr "Summary")
           (Some (BlockMetadata.mk (Some level) None None None None)).

(** The bounds every model puts on a task: the status and the progress of
    the task, and of each of its steps. *)
Definition in_bounds (t : Task.t) : Prop :=
  In (Task.status t) Status
  /\ (0 <= Task.progress t <= 100)%Z
  /\ forall s, In s (Task.steps t) ->
       In (Step.status s) StepStatus
       /\ forall p, Step.progress s = Some p -> (0 <= p <= 100)%Z.

(** A clock that moves: one second for each call. *)
Definition seconds (n : nat) : datetime :=
  nth n ["2025-01-01T00:00:00+00:00"; "2025-01-01T00:00:01+00:00";
         "2025-01-01T00:00:02+00:00"; "2025-01-01T00:00:03+00:00"]
      "2025-01-01T00:00:04+00:00".

Definition task1_running : Task.t :=
  Task.mk (Some id1) "Quarterly report" "running" 0 "You" "Claude Sonnet 4.5"
          (Some (midnight 0)) None default_steps [] ["Task created"].

(* ------------------------------------------------------------------ *)
(** ** The rules of the gate, in the words of the specification       *)
(* ------------------------------------------------------------------ *)

(** The capital of a lower-case letter. *)
Definition capital (k : ascii) : ascii := ascii_of_nat (nat_of_ascii k - 32).

(** A word written in lower-case letters only, as the four keywords are. *)
Definition lowercase_letter (k : ascii) : bool :=
  ((97 <=? nat_of_ascii k) && (nat_of_ascii k <=? 122))%nat.

Fixpoint lowercase_word (word : string) : bool :=
  match word with
  | EmptyString => true
  | String k r => lowercase_letter k && lowercase_word r
  end.

(** [text] spells [word]: the same letters in the same order, each one in
    either case. *)
Fixpoint spells (word text : string) : Prop :=
  match word, text with
  | EmptyString, EmptyString => True
  | String k word', String c text' =>
      (c = k \/ c = capital k) /\ spells word' text'
  | _, _ => False
  end.

(** The text contains the word once lower-cased: somewhere in it the word
    is spelled, in whatever mix of cases. *)
Definition mentions (word text : string) : Prop :=
  exists a k b, text = a ++ k ++ b /\ spells word k.

(* ------------------------------------------------------------------ *)
(** ** Sample data: a task whose logs were set to null                 *)
(* ------------------------------------------------------------------ *)

Definition only_logs (l : field (list string)) : UpdateTaskRequest.t :=
  UpdateTaskRequest.mk Unset Unset Unset Unset Unset Unset Unset Unset
                       l Unset.

Definition null_name_and_append (line : string) : UpdateTaskRequest.t :=
  UpdateTaskRequest.mk Null Unset Unset Unset Unset Unset Unset Unset
                       Unset (Val line).

(** The store after [only_logs Null] was sent to the task of [w1]. *)
Definition w_null_logs : World :=
  mk_World
    [(1%N, Doc.with_updated_at (Doc.with_logs (Doc.of_Task task1) Null)
                               (midnight 1))]
    2.

(* ------------------------------------------------------------------ *)
(** ** The collection                                                  *)
(* ------------------------------------------------------------------ *)

Lemma lookup_replace_same o d' c d :
  lookup o c = Some d -> lookup o (replace o d' c) = Some d'.
Proof.
  induction c as [|[o1 d1] c IH]; simpl; [discriminate|].
  destruct (N.eqb o o1) eqn:E; simpl; rewrite E; auto.
Qed.

Lemma lookup_replace_other o o' d' c :
  o' <> o -> lookup o' (replace o d' c) = lookup o' c.
Proof.
  intros Hne. induction c as [|[o1 d1] c IH]; simpl; [reflexivity|].
  destruct (N.eqb o o1) eqn:E; simpl.
  - apply N.eqb_eq in E. subst o1.
    destruct (N.eqb o' o) eqn:E'; [apply N.eqb_eq in E'; contradiction|reflexivity].
  - destruct (N.eqb o' o1); auto.
Qed.

Lemma lookup_le_max o c d :
  lookup o c = Some d -> (o <= fold_right N.max 0 (map fst c))%N.
Proof.
  induction c as [|[o1 d1] c IH]; simpl; [discriminate|].
  destruct (N.eqb o o1) eqn:E.
  - apply N.eqb_eq in E. subst. intros _. apply N.le_max_l.
  - intros H. specialize (IH H). lia.
Qed.

Lemma lookup_new_ObjectId c : lookup (new_ObjectId c) c = None.
Proof.
  destruct (lookup (new_ObjectId c) c) eqn:E; [|reflexivity].
  apply lookup_le_max in E. unfold new_ObjectId in E. lia.
Qed.

Lemma lookup_app o c o' d :
  lookup o c = None ->
  lookup o (c ++ [(o', d)]) = if N.eqb o o' then Some d else None.
Proof.
  induction c as [|[o1 d1] c IH]; simpl; [reflexivity|].
  destruct (N.eqb o o1); [discriminate|auto].
Qed.

Lemma lookup_inserted c d :
  lookup (new_ObjectId c) (c ++ [(new_ObjectId c, d)]) = Some d.
Proof.
  rewrite lookup_app by apply lookup_new_ObjectId.
  now rewrite N.eqb_refl.
Qed.

(* ------------------------------------------------------------------ *)
(** ** Reading a document back                                         *)
(* ------------------------------------------------------------------ *)

(** What a successful [serialize_task] says of the document. *)
Lemma serialize_task_Ok o d t :
  serialize_task o d = Ok t ->
  Task.id t = Some (str_of_ObjectId o)
  /\ get (Doc.name d) = Some (Task.name t)
  /\ defaulted "queued" (Doc.status d) = Some (Task.status t)
  /\ defaulted 0%Z (Doc.progress d) = Some (Task.progress t)
  /\ defaulted "You" (Doc.user d) = Some (Task.user t)
  /\ defaulted "Claude Sonnet 4.5" (Doc.llm d) = Some (Task.llm t)
  /\ startTime_of d = Task.startTime t
  /\ get (Doc.duration d) = Task.duration t
  /\ defaulted [] (Doc.steps d) = Some (Task.steps t)
  /\ defaulted [] (Doc.canvas d) = Some (Task.canvas t)
  /\ defaulted [] (Doc.logs d) = Some (Task.logs t)
  /\ Task.validate t = true.
Proof.
  unfold serialize_task, Task_of_keys, startTime_of.
  destruct (get (Doc.name d)); [|discriminate].
  destruct (defaulted "queued" (Doc.status d)); [|discriminate].
  destruct (defaulted 0%Z (Doc.progress d)); [|discriminate].
  destruct (defaulted "You" (Doc.user d)); [|discriminate].
  destruct (defaulted "Claude Sonnet 4.5" (Doc.llm d)); [|discriminate].
  destruct (defaulted [] (Doc.steps d)); [|discriminate].
  destruct (defaulted [] (Doc.canvas d)); [|discriminate].
  destruct (defaulted [] (Doc.logs d)); [|discriminate].
  match goal with |- context [Task.validate ?x] =>
    destruct (Task.validate x) eqn:V end; [|discriminate].
  intros H. injection H as <-. simpl.
  repeat split; auto.
  destruct (Doc.startTime d) as [| |[ts|td]]; reflexivity.
Qed.

(** And the converse: a document with those keys reads back. *)
Lemma serialize_task_intro o d t :
  Task.id t = Some (str_of_ObjectId o) ->
  get (Doc.name d) = Some (Task.name t) ->
  defaulted "queued" (Doc.status d) = Some (Task.status t) ->
  defaulted 0%Z (Doc.progress d) = Some (Task.progress t) ->
  defaulted "You" (Doc.user d) = Some (Task.user t) ->
  defaulted "Claude Sonnet 4.5" (Doc.llm d) = Some (Task.llm t) ->
  startTime_of d = Task.startTime t ->
  get (Doc.duration d) = Task.duration t ->
  defaulted [] (Doc.steps d) = Some (Task.steps t) ->
  defaulted [] (Doc.canvas d) = Some (Task.canvas t) ->
  defaulted [] (Doc.logs d) = Some (Task.logs t) ->
  Task.validate t = true ->
  serialize_task o d = Ok t.
Proof.
  intros Hid Hn Hs Hp Hu Hl Hst Hd Hss Hc Hlg Hv.
  unfold serialize_task, Task_of_keys.
  rewrite Hn, Hs, Hp, Hu, Hl, Hss, Hc, Hlg.
  replace (get match Doc.startTime d with
               | Val (TDatetime d0) => Val d0
               | Val (TStr s) => Val s
               | Null => Null
               | Unset => Unset
               end) with (Task.startTime t)
    by (rewrite <- Hst; unfold startTime_of;
        destruct (Doc.startTime d) as [| |[ts|td]]; reflexivity).
  rewrite Hd, <- Hid.
  destruct t; simpl in *. rewrite Hv. reflexivity.
Qed.

Lemma get_task_Ok tid w t :
  get_task tid w = (Ok t, w) ->
  exists o d,
    ObjectId_of_str tid = Some o
    /\ lookup o (db_task w) = Some d
    /\ serialize_task o d = Ok t.
Proof.
  unfold get_task, bind, oid, find_one, lift, raise, ret.
  destruct (ObjectId_of_str tid) as [o|]; simpl; [|discriminate].
  destruct (lookup o (db_task w)) as [d|] eqn:Hd; simpl; [|discriminate].
  intros H. exists o, d. repeat split; congruence.
Qed.

Lemma get_task_found tid w o d :
  ObjectId_of_str tid = Some o ->
  lookup o (db_task w) = Some d ->
  get_task tid w = (serialize_task o d, w).
Proof.
  intros Ho Hd. unfold get_task, bind, oid, find_one, lift, ret.
  rewrite Ho. simpl. rewrite Hd. reflexivity.
Qed.

(* ------------------------------------------------------------------ *)
(** ** One update, key by key                                          *)
(* ------------------------------------------------------------------ *)

Lemma is_set_false {A} (f : field A) : is_set f = false -> f = Unset.
Proof. destruct f; simpl; congruence. Qed.

Lemma nonempty_false u :
  Doc.nonempty u = false ->
  Doc.name u = Unset /\ Doc.status u = Unset /\ Doc.progress u = Unset
  /\ Doc.user u = Unset /\ Doc.llm u = Unset /\ Doc.duration u = Unset
  /\ Doc.steps u = Unset /\ Doc.canvas u = Unset /\ Doc.logs u = Unset.
Proof.
  unfold Doc.nonempty. intros H.
  repeat (apply orb_false_elim in H; destruct H as [H ?]).
  repeat split; now apply is_set_false.
Qed.

Lemma update_one_found o push s w d d1 :
  lookup o (db_task w) = Some d ->
  match push with None => Some d | Some v => Doc.push_logs d v end = Some d1 ->
  update_one o push s w
  = (Ok tt, mk_World (replace o (Doc.set d1 s) (db_task w)) (ticks w)).
Proof.
  intros Hd Hp. unfold update_one. rewrite Hd, Hp. reflexivity.
Qed.

Lemma update_one_missing o push s w :
  lookup o (db_task w) = None -> update_one o push s w = (Ok tt, w).
Proof. intros Hd. unfold update_one. now rewrite Hd. Qed.

(** The push of [update_task], on a document whose [logs] can take it. *)
Lemma push_step tid req w o d :
  ObjectId_of_str tid = Some o ->
  lookup o (db_task w) = Some d ->
  Doc.logs d <> Null ->
  exists d1 w1,
    match get (UpdateTaskRequest.append_log req) with
    | Some line =>
        when (truthy line)
          (o <- oid tid ;;
           now <- utcnow ;;
           update_one o (Some line) (Doc.with_updated_at Doc.empty now))
    | None => ret tt
    end w = (Ok tt, w1)
    /\ lookup o (db_task w1) = Some d1
    /\ (forall o', o' <> o -> lookup o' (db_task w1) = lookup o' (db_task w))
    /\ Doc.name d1 = Doc.name d /\ Doc.status d1 = Doc.status d
    /\ Doc.progress d1 = Doc.progress d /\ Doc.user d1 = Doc.user d
    /\ Doc.llm d1 = Doc.llm d /\ Doc.startTime d1 = Doc.startTime d
    /\ Doc.duration d1 = Doc.duration d /\ Doc.steps d1 = Doc.steps d
    /\ Doc.canvas d1 = Doc.canvas d
    /\ Doc.logs d1 = pushed_logs d req.
Proof.
  intros Ho Hd Hl. unfold pushed_logs, pushes.
  destruct (get (UpdateTaskRequest.append_log req)) as [line|];
    [destruct (truthy line)|]; unfold when.
  - unfold bind, oid, utcnow. rewrite Ho. simpl.
    destruct (Doc.push_logs d line) as [d1|] eqn:Hp.
    + erewrite update_one_found by (simpl; eauto).
      eexists _, _. split; [reflexivity|]. simpl.
      split; [eapply lookup_replace_same; eauto|].
      split; [intros o' Hne; now apply lookup_replace_other|].
      unfold Doc.push_logs in Hp.
      destruct (Doc.logs d) eqn:E; try congruence;
        injection Hp as <-; simpl; repeat split; reflexivity.
    + unfold Doc.push_logs in Hp. destruct (Doc.logs d); congruence.
  - exists d, w. repeat split; auto.
  - exists d, w. repeat split; auto.
Qed.

(** The [$set] of [update_task]. *)
Lemma set_step tid req w o d :
  ObjectId_of_str tid = Some o ->
  lookup o (db_task w) = Some d ->
  exists d2 w2,
    when (Doc.nonempty (updates_of req))
      (now <- utcnow ;;
       o <- oid tid ;;
       update_one o None (Doc.with_updated_at (updates_of req) now)) w
    = (Ok tt, w2)
    /\ lookup o (db_task w2) = Some d2
    /\ (forall o', o' <> o -> lookup o' (db_task w2) = lookup o' (db_task w))
    /\ Doc.name d2 = set_key (Doc.name d) (UpdateTaskRequest.name req)
    /\ Doc.status d2 = set_key (Doc.status d) (UpdateTaskRequest.status req)
    /\ Doc.progress d2
       = set_key (Doc.progress d) (UpdateTaskRequest.progress req)
    /\ Doc.user d2 = set_key (Doc.user d) (UpdateTaskRequest.user req)
    /\ Doc.llm d2 = set_key (Doc.llm d) (UpdateTaskRequest.llm req)
    /\ Doc.startTime d2 = Doc.startTime d
    /\ Doc.duration d2
       = set_key (Doc.duration d) (UpdateTaskRequest.duration req)
    /\ Doc.steps d2 = set_key (Doc.steps d) (UpdateTaskRequest.steps req)
    /\ Doc.canvas d2 = set_key (Doc.canvas d) (UpdateTaskRequest.canvas req)
    /\ Doc.logs d2 = set_key (Doc.logs d) (UpdateTaskRequest.logs req).
Proof.
  intros Ho Hd. unfold when.
  destruct (Doc.nonempty (updates_of req)) eqn:E.
  - unfold bind, utcnow, oid. rewrite Ho. simpl.
    erewrite update_one_found by (simpl; eauto).
    eexists _, _. split; [reflexivity|]. simpl.
    split; [eapply lookup_replace_same; eauto|].
    split; [intros o' Hne; now apply lookup_replace_other|].
    repeat split; reflexivity.
  - apply nonempty_false in E. simpl in E.
    destruct E as (-> & -> & -> & -> & -> & -> & -> & -> & ->).
    exists d, w. repeat split; auto.
Qed.

(** An update of a stored document: what is returned and what is stored. *)
Lemma update_task_existing tid req w o d :
  ObjectId_of_str tid = Some o ->
  lookup o (db_task w) = Some d ->
  Doc.logs d <> Null ->
  exists d' w',
    update_task tid req w = (serialize_task o d', w')
    /\ lookup o (db_task w') = Some d'
    /\ (forall o', o' <> o -> lookup o' (db_task w') = lookup o' (db_task w))
    /\ Doc.name d' = set_key (Doc.name d) (UpdateTaskRequest.name req)
    /\ Doc.status d' = set_key (Doc.status d) (UpdateTaskRequest.status req)
    /\ Doc.progress d'
       = set_key (Doc.progress d) (UpdateTaskRequest.progress req)
    /\ Doc.user d' = set_key (Doc.user d) (UpdateTaskRequest.user req)
    /\ Doc.llm d' = set_key (Doc.llm d) (UpdateTaskRequest.llm req)
    /\ Doc.startTime d' = Doc.startTime d
    /\ Doc.duration d'
       = set_key (Doc.duration d) (UpdateTaskRequest.duration req)
    /\ Doc.steps d' = set_key (Doc.steps d) (UpdateTaskRequest.steps req)
    /\ Doc.canvas d' = set_key (Doc.canvas d) (UpdateTaskRequest.canvas req)
    /\ Doc.logs d'
       = set_key (pushed_logs d req) (UpdateTaskRequest.logs req).
Proof.
  intros Ho Hd Hl.
  destruct (push_step tid req w o d Ho Hd Hl)
    as (d1 & w1 & R1 & L1 & F1 & n1 & s1 & p1 & u1 & l1 & t1 & du1 & ss1
        & c1 & lg1).
  destruct (set_step tid req w1 o d1 Ho L1)
    as (d2 & w2 & R2 & L2 & F2 & n2 & s2 & p2 & u2 & l2 & t2 & du2 & ss2
        & c2 & lg2).
  exists d2, w2.
  split.
  { unfold update_task.
    unfold bind at 1. rewrite R1.
    unfold bind at 1. rewrite R2.
    unfold bind, oid, find_one, lift, ret. rewrite Ho. simpl.
    rewrite L2. reflexivity. }
  split; [exact L2|].
  split; [intros o' Hne; rewrite F2, F1; auto|].
  rewrite n2, s2, p2, u2, l2, t2, du2, ss2, c2, lg2.
  rewrite n1, s1, p1, u1, l1, t1, du1, ss1, c1, lg1.
  repeat split; reflexivity.
Qed.

(* ------------------------------------------------------------------ *)
(** ** One update, as the caller sees it                               *)
(* ------------------------------------------------------------------ *)

Lemma logs_not_Null o d t : serialize_task o d = Ok t -> Doc.logs d <> Null.
Proof.
  intros H. apply serialize_task_Ok in H.
  destruct H as (_ & _ & _ & _ & _ & _ & _ & _ & _ & _ & H & _).
  intros E. rewrite E in H. discriminate.
Qed.

Lemma get_set_key {A} (old new : field A) (x y : A) :
  get old = Some x ->
  get (set_key old new) = Some y ->
  y = updated new x.
Proof. destruct new; simpl; congruence. Qed.

Lemma defaulted_set_key {A} (dflt : A) (old new : field A) (x y : A) :
  defaulted dflt old = Some x ->
  defaulted dflt (set_key old new) = Some y ->
  y = updated new x.
Proof. destruct new; simpl; congruence. Qed.

Lemma defaulted_pushed d req x y :
  defaulted [] (Doc.logs d) = Some x ->
  defaulted [] (set_key (pushed_logs d req) (UpdateTaskRequest.logs req))
  = Some y ->
  y = logs_after req x.
Proof.
  unfold logs_after, pushed_logs.
  destruct (UpdateTaskRequest.logs req); simpl; try congruence.
  destruct (pushes req) as [line|]; [|congruence].
  destruct (Doc.logs d); simpl; intros H1 H2; try discriminate;
    injection H1 as <-; injection H2 as <-; reflexivity.
Qed.

(** Whatever an update of a readable task returns, field by field. *)
Lemma update_task_returns tid req w t t' w' :
  get_task tid w = (Ok t, w) ->
  update_task tid req w = (Ok t', w') ->
  get_task tid w' = (Ok t', w')
  /\ Task.id t' = Task.id t
  /\ Task.startTime t' = Task.startTime t
  /\ Task.name t' = updated (UpdateTaskRequest.name req) (Task.name t)
  /\ Task.status t' = updated (UpdateTaskRequest.status req) (Task.status t)
  /\ Task.progress t'
     = updated (UpdateTaskRequest.progress req) (Task.progress t)
  /\ Task.user t' = updated (UpdateTaskRequest.user req) (Task.user t)
  /\ Task.llm t' = updated (UpdateTaskRequest.llm req) (Task.llm t)
  /\ Task.duration t' = duration_after req (Task.duration t)
  /\ Task.steps t' = updated (UpdateTaskRequest.steps req) (Task.steps t)
  /\ Task.canvas t' = updated (UpdateTaskRequest.canvas req) (Task.canvas t)
  /\ Task.logs t' = logs_after req (Task.logs t).
Proof.
  intros Hg Hu.
  destruct (get_task_Ok _ _ _ Hg) as (o & d & Ho & Hd & Hs).
  destruct (update_task_existing tid req w o d Ho Hd (logs_not_Null _ _ _ Hs))
    as (d' & w1 & R & L & _ & n & s & p & u & l & st & du & ss & c & lg).
  rewrite R in Hu. injection Hu as Hs' <-.
  split; [rewrite (get_task_found _ _ _ _ Ho L); now rewrite Hs'|].
  apply serialize_task_Ok in Hs, Hs'.
  destruct Hs as (i0 & n0 & s0 & p0 & u0 & l0 & st0 & du0 & ss0 & c0 & lg0 & _).
  destruct Hs' as (i1 & n1 & s1 & p1 & u1 & l1 & st1 & du1 & ss1 & c1 & lg1 & _).
  rewrite n in n1. rewrite s in s1. rewrite p in p1. rewrite u in u1.
  rewrite l in l1. rewrite ss in ss1. rewrite c in c1. rewrite lg in lg1.
  repeat split.
  - congruence.
  - rewrite <- st0, <- st1. unfold startTime_of. now rewrite st.
  - eapply get_set_key; eauto.
  - eapply defaulted_set_key; eauto.
  - eapply defaulted_set_key; eauto.
  - eapply defaulted_set_key; eauto.
  - eapply defaulted_set_key; eauto.
  - rewrite <- du1, <- du0, du. unfold duration_after.
    destruct (UpdateTaskRequest.duration req); reflexivity.
  - eapply defaulted_set_key; eauto.
  - eapply defaulted_set_key; eauto.
  - eapply defaulted_pushed; eauto.
Qed.

Lemma defaulted_updated {A} (dflt : A) (old new : field A) (x : A) :
  defaulted dflt old = Some x ->
  is_null new = false ->
  defaulted dflt (set_key old new) = Some (updated new x).
Proof. destruct new; simpl; congruence. Qed.

Lemma get_updated {A} (old new : field A) (x : A) :
  get old = Some x ->
  is_null new = false ->
  get (set_key old new) = Some (updated new x).
Proof. destruct new; simpl; congruence. Qed.

Lemma validate_updated {A} (ok : A -> bool) (new : field A) (x : A) :
  ok x = true ->
  optional ok (get new) = true ->
  ok (updated new x) = true.
Proof. destruct new; simpl; auto. Qed.

(** A valid request that keeps the shape of a readable task is served. *)
Lemma update_task_total tid req w t :
  get_task tid w = (Ok t, w) ->
  UpdateTaskRequest.validate req = true ->
  keeps_shape req = true ->
  exists t' w', update_task tid req w = (Ok t', w').
Proof.
  intros Hg Hv Hk.
  destruct (get_task_Ok _ _ _ Hg) as (o & d & Ho & Hd & Hs).
  destruct (update_task_existing tid req w o d Ho Hd (logs_not_Null _ _ _ Hs))
    as (d' & w1 & R & L & _ & n & s & p & u & l & st & du & ss & c & lg).
  apply serialize_task_Ok in Hs.
  destruct Hs as (i0 & n0 & s0 & p0 & u0 & l0 & st0 & du0 & ss0 & c0 & lg0 & V).
  unfold keeps_shape in Hk. apply negb_true_iff in Hk.
  repeat (apply orb_false_elim in Hk; destruct Hk as [Hk ?]).
  unfold UpdateTaskRequest.validate in Hv.
  repeat (apply andb_prop in Hv; destruct Hv as [Hv ?]).
  unfold Task.validate in V.
  repeat (apply andb_prop in V; destruct V as [V ?]).
  exists (Task.mk (Task.id t)
            (updated (UpdateTaskRequest.name req) (Task.name t))
            (updated (UpdateTaskRequest.status req) (Task.status t))
            (updated (UpdateTaskRequest.progress req) (Task.progress t))
            (updated (UpdateTaskRequest.user req) (Task.user t))
            (updated (UpdateTaskRequest.llm req) (Task.llm t))
            (Task.startTime t)
            (duration_after req (Task.duration t))
            (updated (UpdateTaskRequest.steps req) (Task.steps t))
            (updated (UpdateTaskRequest.canvas req) (Task.canvas t))
            (logs_after req (Task.logs t))), w1.
  rewrite R. f_equal.
  apply serialize_task_intro; simpl.
  - exact i0.
  - rewrite n. now apply get_updated.
  - rewrite s. now apply defaulted_updated.
  - rewrite p. now apply defaulted_updated.
  - rewrite u. now apply defaulted_updated.
  - rewrite l. now apply defaulted_updated.
  - rewrite <- st0. unfold startTime_of. now rewrite st.
  - rewrite du, <- du0. unfold duration_after.
    destruct (UpdateTaskRequest.duration req); reflexivity.
  - rewrite ss. now apply defaulted_updated.
  - rewrite c. now apply defaulted_updated.
  - rewrite lg. unfold logs_after, pushed_logs.
    destruct (UpdateTaskRequest.logs req); simpl; try discriminate; auto.
    destruct (pushes req) as [line|]; auto.
    destruct (Doc.logs d); simpl in *; try discriminate;
      injection lg0 as <-; reflexivity.
  - unfold Task.validate. simpl.
    rewrite !andb_true_iff. repeat split.
    + now apply (validate_updated (Literal Status)).
    + now apply (validate_updated (ge_le 0 100)).
    + now apply (validate_updated (forallb Step.validate)).
    + now apply (validate_updated (forallb Block.validate)).
Qed.

(* ------------------------------------------------------------------ *)
(** ** The conversation gate                                           *)
(* ------------------------------------------------------------------ *)

Lemma prefix_iff (n h : string) :
  String.prefix n h = true <-> exists b, h = n ++ b.
Proof.
  revert h. induction n as [|c n IH]; intros h; simpl.
  - split; [intros _; now exists h|intros _; now destruct h].
  - destruct h as [|c' h]; simpl.
    + split; [discriminate|intros [b Hb]; discriminate].
    + destruct (ascii_dec c c') as [->|Hne].
      * rewrite IH. split; intros [b Hb]; exists b; congruence.
      * split; [discriminate|intros [b Hb]; congruence].
Qed.

(** [str_in] is containment: the needle sits somewhere in the text. *)
Lemma str_in_iff (n h : string) :
  str_in n h = true <-> exists a b, h = a ++ n ++ b.
Proof.
  induction h as [|c h IH]; cbn [str_in].
  - rewrite orb_false_r, prefix_iff. split.
    + intros [b Hb]. now exists EmptyString, b.
    + intros ([|c a] & b & Hab); simpl in Hab; [now exists b|discriminate].
  - rewrite orb_true_iff, prefix_iff, IH. split.
    + intros [[b Hb]|(a & b & Hab)].
      * now exists EmptyString, b.
      * exists (String c a), b. simpl. now rewrite Hab.
    + intros ([|c' a] & b & Hab); simpl in Hab.
      * left. now exists b.
      * right. exists a, b. congruence.
Qed.

Lemma last_or_None_snoc {A} (h : list A) (m : A) :
  last_or_None (h ++ [m]) = Some m.
Proof.
  induction h as [|x h IH]; [reflexivity|].
  simpl. destruct (h ++ [m])%list eqn:E; [|exact IH].
  now destruct h.
Qed.

(** [chat] answers every request, with the text and flag of [decide]. *)
Lemma chat_run req w :
  chat req w
  = (Ok (ChatResponse.mk
           (ChatMessage.mk None "assistant"
              (fst (decide (last_or_None (ChatRequest.history req))))
              (Some quick) (Some (clock (ticks w))))
           (snd (decide (last_or_None (ChatRequest.history req))))),
     mk_World (db_task w) (S (ticks w))).
Proof.
  unfold chat.
  destruct (decide (last_or_None (ChatRequest.history req))) as [c r].
  reflexivity.
Qed.

Lemma lower_app (a b : string) : lower (a ++ b) = lower a ++ lower b.
Proof. induction a as [|c a IH]; simpl; [reflexivity|now rewrite IH]. Qed.

Lemma lower_app_inv (c x y : string) :
  lower c = x ++ y ->
  exists c1 c2, c = c1 ++ c2 /\ lower c1 = x /\ lower c2 = y.
Proof.
  revert c. induction x as [|k x IH]; intros c H.
  - exists EmptyString, c. auto.
  - destruct c as [|ch c]; [discriminate|].
    simpl in H. injection H as Hk Hr.
    destruct (IH c Hr) as (c1 & c2 & -> & H1 & H2).
    exists (String ch c1), c2. simpl. rewrite Hk, H1. auto.
Qed.

(** A character that lower-cases to [k] is [k] or its capital. *)
Lemma lower_ascii_inv (ch k : ascii) :
  lower_ascii ch = k -> ch = k \/ ch = capital k.
Proof.
  intros <-.
  destruct ch as [[] [] [] [] [] [] [] []];
    first [left; reflexivity | right; reflexivity].
Qed.

(** A lower-case letter and its capital both lower-case to the letter. *)
Lemma lower_ascii_letter (k : ascii) :
  lowercase_letter k = true ->
  lower_ascii k = k /\ lower_ascii (capital k) = k.
Proof.
  destruct k as [[] [] [] [] [] [] [] []];
    intros H; try discriminate H; split; reflexivity.
Qed.

Lemma lower_spells (word text : string) :
  lower text = word -> spells word text.
Proof.
  revert word. induction text as [|c text IH]; intros word H.
  - simpl in H. subst. exact I.
  - simpl in H. subst word. simpl.
    split; [now apply lower_ascii_inv|now apply IH].
Qed.

Lemma spells_lower (word text : string) :
  lowercase_word word = true -> spells word text -> lower text = word.
Proof.
  revert text. induction word as [|k word IH]; intros text Hw Hs.
  - destruct text; [reflexivity|contradiction].
  - destruct text as [|c text]; [contradiction|].
    simpl in Hw. apply andb_prop in Hw. destruct Hw as [Hk Hw].
    destruct Hs as [Hc Hs]. simpl.
    rewrite (IH text Hw Hs).
    destruct (lower_ascii_letter k Hk) as [L1 L2].
    destruct Hc as [->| ->]; now rewrite ?L1, ?L2.
Qed.

(** The test of [chat] on a keyword is that the text mentions it. *)
Lemma str_in_lower_iff (word text : string) :
  lowercase_word word = true ->
  str_in word (lower text) = true <-> mentions word text.
Proof.
  intros Hw. rewrite str_in_iff. split.
  - intros (a' & b' & H).
    destruct (lower_app_inv _ _ _ H) as (a & r & -> & Ha & Hr).
    destruct (lower_app_inv _ _ _ Hr) as (k & b & -> & Hk & Hb).
    exists a, k, b. split; [reflexivity|now apply lower_spells].
  - intros (a & k & b & -> & Hs).
    exists (lower a), (lower b).
    now rewrite !lower_app, (spells_lower _ _ Hw Hs).
Qed.

(** C7. When the last entry of the history is a user message, the reply is
    chosen by the first rule its text matches once lower-cased: if it
    mentions "ready" or "create", in any mix of cases, the reply confirms
    the specification with readyForTask true, also when "metrics" or
    "period" are mentioned as well; otherwise, if it mentions "metrics" or
    "period", the reply asks for optional extensions with readyForTask
    false; otherwise the reply echoes the input as it was given, asks again
    for metrics and time period, and has readyForTask false. *)
Theorem chat_rules (h : list ChatMessage.t) (m : ChatMessage.t) (w : World) :
  ChatMessage.role m = "user" ->
  exists resp w',
    chat (ChatRequest.mk (h ++ [m])) w = (Ok resp, w')
    /\ ChatMessage.role (ChatResponse.message resp) = "assistant"
    /\ let text := ChatMessage.content m in
       let rule1 := mentions "ready" text \/ mentions "create" text in
       let rule2 := mentions "metrics" text \/ mentions "period" text in
       (rule1 ->
        ChatResponse.readyForTask resp = true
        /\ ChatMessage.content (ChatResponse.message resp)
           = "Spec looks good. Click Create Task to start the pipeline.")
       /\ (~ rule1 -> rule2 ->
           ChatResponse.readyForTask resp = false
           /\ ChatMessage.content (ChatResponse.message resp)
              = "Great, noted. Anything else to include? You can add competitor analysis or forecast.")
       /\ (~ rule1 -> ~ rule2 ->
           ChatResponse.readyForTask resp = false
           /\ ChatMessage.content (ChatResponse.message resp)
              = "Got it: " ++ text
                ++ ". Which metrics and time period should we use?").
Proof.
  intros Hrole. eexists _, _. split; [apply chat_run|].
  simpl. rewrite last_or_None_snoc. unfold decide. rewrite Hrole. simpl.
  split; [reflexivity|].
  pose proof (str_in_lower_iff "ready" (ChatMessage.content m) eq_refl) as R.
  pose proof (str_in_lower_iff "create" (ChatMessage.content m) eq_refl) as C.
  pose proof (str_in_lower_iff "metrics" (ChatMessage.content m) eq_refl) as M.
  pose proof (str_in_lower_iff "period" (ChatMessage.content m) eq_refl) as P.
  destruct (str_in "ready" (lower (ChatMessage.content m)));
    destruct (str_in "create" (lower (ChatMessage.content m)));
    destruct (str_in "metrics" (lower (ChatMessage.content m)));
    destruct (str_in "period" (lower (ChatMessage.content m)));
    simpl; (split; [|split]);
    try (intros _; split; reflexivity);
    try (intros _ _; split; reflexivity);
    intros; exfalso;
    repeat match goal with
           | H : _ \/ _ |- _ => destruct H
           | H : ~ (_ \/ _) |- _ =>
               apply Decidable.not_or in H; destruct H
           end;
    repeat match goal with
           | I : _ <-> mentions ?k _, H : mentions ?k _ |- _ =>
               apply I in H; discriminate H
           | I : true = true <-> mentions ?k _, H : ~ mentions ?k _ |- _ =>
               apply H; apply I; reflexivity
           end.
Qed.


(* ------------------------------------------------------------------ *)
(** ** Creating a task                                                 *)
(* ------------------------------------------------------------------ *)

Lemma serialize_of_Task o x :
  Task.validate x = true ->
  serialize_task o (Doc.of_Task x)
  = Ok (Task.mk (Some (str_of_ObjectId o)) (Task.name x) (Task.status x)
                (Task.progress x) (Task.user x) (Task.llm x)
                (Task.startTime x) (Task.duration x) (Task.steps x)
                (Task.canvas x) (Task.logs x)).
Proof.
  intros V. apply serialize_task_intro; simpl; auto.
  - unfold startTime_of. simpl. now destruct (Task.startTime x).
  - now destruct (Task.duration x).
Qed.

Lemma model_validate_steps b req :
  CreateTaskRequest.model_validate b = Some req ->
  optional (forallb Step.validate) (CreateTaskRequest.steps req) = true.
Proof.
  unfold CreateTaskRequest.model_validate.
  destruct (CreateTaskRequest.k_name (declared b)); try discriminate.
  destruct (CreateTaskRequest.str_default _ _); try discriminate.
  destruct (CreateTaskRequest.str_default _ _); try discriminate.
  destruct (optional _ _) eqn:E; [|discriminate].
  intros H. injection H as <-. exact E.
Qed.

Lemma or_list_valid (xs : option (list Step.t)) :
  optional (forallb Step.validate) xs = true ->
  forallb Step.validate (or_list xs default_steps) = true.
Proof. destruct xs as [[|x r]|]; simpl; auto. Qed.

(** The create route, run: the task returned and the store afterwards. *)
Lemma POST_api_tasks_run
    (b : body CreateTaskRequest.keys) (req : CreateTaskRequest.t) (w : World) :
  CreateTaskRequest.model_validate b = Some req ->
  ObjectId_of_str (str_of_ObjectId (new_ObjectId (db_task w)))
  = Some (new_ObjectId (db_task w)) ->
  exists t w',
    POST_api_tasks b w = (Ok t, w')
    /\ t = Task.mk (Some (str_of_ObjectId (new_ObjectId (db_task w))))
                   (CreateTaskRequest.name req) "queued" 0%Z
                   (CreateTaskRequest.user req) (CreateTaskRequest.llm req)
                   (Some (clock (ticks w))) None
                   (or_list (CreateTaskRequest.steps req) default_steps)
                   [] ["Task created"]
    /\ lookup (new_ObjectId (db_task w)) (db_task w) = None
    /\ get_task (str_of_ObjectId (new_ObjectId (db_task w))) w' = (Ok t, w').
Proof.
  intros Hv Hid.
  pose proof (or_list_valid _ (model_validate_steps _ _ Hv)) as Hss.
  unfold POST_api_tasks. rewrite Hv.
  unfold create_task, bind, utcnow, lift, Task_new, create_document,
    insert_one, ret, find_one.
  unfold Task.validate. simpl. rewrite Hss. simpl.
  rewrite Hid. simpl. rewrite lookup_inserted.
  rewrite serialize_of_Task by (unfold Task.validate; simpl; now rewrite Hss).
  eexists _, _. split; [reflexivity|]. simpl.
  split; [reflexivity|]. split; [apply lookup_new_ObjectId|].
  erewrite get_task_found; [|exact Hid|simpl; apply lookup_inserted].
  rewrite serialize_of_Task by (unfold Task.validate; simpl; now rewrite Hss).
  reflexivity.
Qed.

(** C1. A create request with no steps, or with an empty sequence of steps,
    yields a task with exactly the four default steps 'Analyze Data', 'Write
    Summary', 'Gen Charts', 'Final Assembly' in that order, each queued; the
    task has status queued, progress 0, an empty canvas and the logs
    ["Task created"].  With a non-empty sequence of steps the task has those
    steps. *)
Theorem create_task_defaults
    (b : body CreateTaskRequest.keys) (req : CreateTaskRequest.t)
    (w : World) :
  CreateTaskRequest.model_validate b = Some req ->
  ObjectId_of_str (str_of_ObjectId (new_ObjectId (db_task w)))
  = Some (new_ObjectId (db_task w)) ->
  exists t w',
    POST_api_tasks b w = (Ok t, w')
    /\ Task.status t = "queued"
    /\ Task.progress t = 0%Z
    /\ Task.canvas t = []
    /\ Task.logs t = ["Task created"]
    /\ Task.name t = CreateTaskRequest.name req
    /\ Task.startTime t = Some (clock (ticks w))
    /\ Task.id t = Some (str_of_ObjectId (new_ObjectId (db_task w)))
    /\ ((CreateTaskRequest.steps req = None
         \/ CreateTaskRequest.steps req = Some []) ->
        map Step.name (Task.steps t)
        = ["Analyze Data"; "Write Summary"; "Gen Charts"; "Final Assembly"]
        /\ map Step.status (Task.steps t)
           = ["queued"; "queued"; "queued"; "queued"]
        /\ Task.steps t = default_steps)
    /\ (forall ss, CreateTaskRequest.steps req = Some ss -> ss <> [] ->
        Task.steps t = ss).
Proof.
  intros Hv Hid.
  destruct (POST_api_tasks_run b req w Hv Hid) as (t & w' & Hp & -> & _).
  eexists _, w'. split; [exact Hp|]. simpl.
  repeat split; try reflexivity.
  - destruct H as [->| ->]; reflexivity.
  - destruct H as [->| ->]; reflexivity.
  - destruct H as [->| ->]; reflexivity.
  - intros ss -> Hne. destruct ss; [contradiction|reflexivity].
Qed.

(* ------------------------------------------------------------------ *)
(** ** Ids that resolve to nothing                                     *)
(* ------------------------------------------------------------------ *)

Lemma update_task_invalid_id tid req w :
  ObjectId_of_str tid = None ->
  exists w',
    update_task tid req w = (Err (HTTPException 400 "Invalid id"), w')
    /\ db_task w' = db_task w.
Proof.
  intros Ho. unfold update_task, bind, when, oid, utcnow, raise, ret.
  rewrite Ho.
  destruct (get (UpdateTaskRequest.append_log req)) as [line|];
    [destruct (truthy line)|]; simpl;
    try (eexists; split; reflexivity);
    destruct (Doc.nonempty (updates_of req)); simpl;
    eexists; split; reflexivity.
Qed.

Lemma update_task_missing tid req w o :
  ObjectId_of_str tid = Some o ->
  lookup o (db_task w) = None ->
  exists w',
    update_task tid req w = (Err (HTTPException 404 "Task not found"), w')
    /\ db_task w' = db_task w.
Proof.
  intros Ho Hd.
  unfold update_task, bind, when, oid, utcnow, raise, ret, find_one,
    update_one.
  rewrite Ho.
  destruct (get (UpdateTaskRequest.append_log req)) as [line|];
    [destruct (truthy line)|]; simpl; repeat (rewrite Hd; simpl);
    destruct (Doc.nonempty (updates_of req)); simpl;
    repeat (rewrite Hd; simpl);
    eexists; split; reflexivity.
Qed.

(** C6. For an id that is a valid identifier and resolves to no stored
    record, read-one and partial update both fail with Not-Found: no task,
    default or empty, is returned and none is stored.  For an id that is
    not a valid identifier both fail with Bad-Request. *)
Theorem unknown_and_malformed_ids
    (tid : string) (req : UpdateTaskRequest.t) (w : World) :
  (forall o,
     ObjectId_of_str tid = Some o ->
     lookup o (db_task w) = None ->
     exists e w',
       Not_Found e = true
       /\ get_task tid w = (Err e, w)
       /\ update_task tid req w = (Err e, w')
       /\ db_task w' = db_task w)
  /\ (ObjectId_of_str tid = None ->
      exists e w',
        Bad_Request e = true
        /\ get_task tid w = (Err e, w)
        /\ update_task tid req w = (Err e, w')
        /\ db_task w' = db_task w).
Proof.
  split.
  - intros o Ho Hd.
    destruct (update_task_missing tid req w o Ho Hd) as (w' & Hu & Hw).
    exists (HTTPException 404 "Task not found"), w'.
    repeat split; auto.
    unfold get_task, bind, oid, find_one, ret, raise.
    rewrite Ho. simpl. now rewrite Hd.
  - intros Ho.
    destruct (update_task_invalid_id tid req w Ho) as (w' & Hu & Hw).
    exists (HTTPException 400 "Invalid id"), w'.
    repeat split; auto.
    unfold get_task, bind, oid, raise. now rewrite Ho.
Qed.

(* ------------------------------------------------------------------ *)
(** ** Partial update                                                  *)
(* ------------------------------------------------------------------ *)

(** C3. An update of an existing task changes only the fields present in
    the request: every field the request leaves out reads back as before.
    In particular an update that supplies only status leaves name, steps,
    canvas and logs as they were. *)
Theorem update_changes_only_present_fields
    (tid : string) (req : UpdateTaskRequest.t) (w : World) (t : Task.t) :
  get_task tid w = (Ok t, w) ->
  (UpdateTaskRequest.validate req = true -> keeps_shape req = true ->
   exists t' w', update_task tid req w = (Ok t', w'))
  /\ (forall t' w',
        update_task tid req w = (Ok t', w') ->
        Task.id t' = Task.id t
        /\ Task.startTime t' = Task.startTime t
        /\ (UpdateTaskRequest.name req = Unset -> Task.name t' = Task.name t)
        /\ (UpdateTaskRequest.status req = Unset ->
            Task.status t' = Task.status t)
        /\ (UpdateTaskRequest.progress req = Unset ->
            Task.progress t' = Task.progress t)
        /\ (UpdateTaskRequest.user req = Unset -> Task.user t' = Task.user t)
        /\ (UpdateTaskRequest.llm req = Unset -> Task.llm t' = Task.llm t)
        /\ (UpdateTaskRequest.duration req = Unset ->
            Task.duration t' = Task.duration t)
        /\ (UpdateTaskRequest.steps req = Unset ->
            Task.steps t' = Task.steps t)
        /\ (UpdateTaskRequest.canvas req = Unset ->
            Task.canvas t' = Task.canvas t)
        /\ (UpdateTaskRequest.logs req = Unset ->
            UpdateTaskRequest.append_log req = Unset ->
            Task.logs t' = Task.logs t))
  /\ (forall s,
        Literal Status s = true ->
        exists t' w',
          update_task tid (only_status s) w = (Ok t', w')
          /\ Task.status t' = s
          /\ Task.name t' = Task.name t
          /\ Task.steps t' = Task.steps t
          /\ Task.canvas t' = Task.canvas t
          /\ Task.logs t' = Task.logs t
          /\ Task.id t' = Task.id t
          /\ Task.progress t' = Task.progress t
          /\ Task.user t' = Task.user t
          /\ Task.llm t' = Task.llm t
          /\ Task.startTime t' = Task.startTime t
          /\ Task.duration t' = Task.duration t).
Proof.
  intros Hg. split; [|split].
  - intros Hv Hk. now apply (update_task_total tid req w t).
  - intros t' w' Hu.
    destruct (update_task_returns _ _ _ _ _ _ Hg Hu)
      as (_ & i & st & n & s & p & u & l & du & ss & c & lg).
    unfold duration_after in du. unfold logs_after, pushes in lg.
    repeat split; auto.
    + intros E. now rewrite n, E.
    + intros E. now rewrite s, E.
    + intros E. now rewrite p, E.
    + intros E. now rewrite u, E.
    + intros E. now rewrite l, E.
    + intros E. now rewrite du, E.
    + intros E. now rewrite ss, E.
    + intros E. now rewrite c, E.
    + intros E1 E2. now rewrite lg, E1, E2.
  - intros s Hs.
    destruct (update_task_total tid (only_status s) w t Hg) as (t' & w' & Hu).
    { change (UpdateTaskRequest.validate (only_status s))
        with (Literal Status s && true && true && true).
      now rewrite Hs. }
    { reflexivity. }
    exists t', w'. split; [exact Hu|].
    destruct (update_task_returns _ _ _ _ _ _ Hg Hu)
      as (_ & i & st & n & s' & p & u & l & du & ss & c & lg).
    repeat split; assumption.
Qed.

(** C9. An update of an existing task leaves its id and its startTime as
    they were: the request has no key for either (a body key the model
    does not declare is dropped), the stored document keeps its startTime,
    and the task returned carries the id and startTime it had. *)
Theorem update_keeps_id_and_startTime
    (tid : string) (req : UpdateTaskRequest.t) (w : World) (t : Task.t) :
  get_task tid w = (Ok t, w) ->
  (UpdateTaskRequest.validate req = true -> keeps_shape req = true ->
   exists t' w', update_task tid req w = (Ok t', w'))
  /\ (forall t' w',
        update_task tid req w = (Ok t', w') ->
        Task.id t' = Task.id t /\ Task.startTime t' = Task.startTime t)
  /\ (exists o d d' r w',
        ObjectId_of_str tid = Some o
        /\ lookup o (db_task w) = Some d
        /\ update_task tid req w = (r, w')
        /\ lookup o (db_task w') = Some d'
        /\ Doc.startTime d' = Doc.startTime d)
  /\ Doc.startTime (updates_of req) = Unset
  /\ (forall e,
        PATCH_api_tasks tid (mk_body req e) w
        = PATCH_api_tasks tid (mk_body req []) w).
Proof.
  intros Hg. split; [|split; [|split; [|split]]].
  - intros Hv Hk. now apply (update_task_total tid req w t).
  - intros t' w' Hu.
    destruct (update_task_returns _ _ _ _ _ _ Hg Hu) as (_ & i & st & _).
    now split.
  - destruct (get_task_Ok _ _ _ Hg) as (o & d & Ho & Hd & Hs).
    destruct (update_task_existing tid req w o d Ho Hd
                (logs_not_Null _ _ _ Hs))
      as (d' & w' & R & L & _ & _ & _ & _ & _ & _ & st & _).
    exists o, d, d', (serialize_task o d'), w'. repeat split; auto.
  - reflexivity.
  - reflexivity.
Qed.

(** The push of [update_task] when there is nothing to push. *)
Lemma push_step_skipped tid req w :
  pushes req = None ->
  match get (UpdateTaskRequest.append_log req) with
  | Some line =>
      when (truthy line)
        (o <- oid tid ;;
         now <- utcnow ;;
         update_one o (Some line) (Doc.with_updated_at Doc.empty now))
  | None => ret tt
  end w = (Ok tt, w).
Proof.
  unfold pushes.
  destruct (get (UpdateTaskRequest.append_log req)) as [line|];
    [|reflexivity].
  destruct (truthy line); [discriminate|reflexivity].
Qed.

(** An update of a stored document whose push, if any, the store takes:
    [update_task_existing], also for null logs when nothing is pushed. *)
Lemma update_task_stored tid req w o d :
  ObjectId_of_str tid = Some o ->
  lookup o (db_task w) = Some d ->
  Doc.logs d <> Null \/ pushes req = None ->
  exists d' w',
    update_task tid req w = (serialize_task o d', w')
    /\ lookup o (db_task w') = Some d'
    /\ Doc.name d' = set_key (Doc.name d) (UpdateTaskRequest.name req)
    /\ Doc.status d' = set_key (Doc.status d) (UpdateTaskRequest.status req)
    /\ Doc.progress d'
       = set_key (Doc.progress d) (UpdateTaskRequest.progress req)
    /\ Doc.user d' = set_key (Doc.user d) (UpdateTaskRequest.user req)
    /\ Doc.llm d' = set_key (Doc.llm d) (UpdateTaskRequest.llm req)
    /\ Doc.duration d'
       = set_key (Doc.duration d) (UpdateTaskRequest.duration req)
    /\ Doc.steps d' = set_key (Doc.steps d) (UpdateTaskRequest.steps req)
    /\ Doc.canvas d' = set_key (Doc.canvas d) (UpdateTaskRequest.canvas req)
    /\ Doc.logs d'
       = set_key (pushed_logs d req) (UpdateTaskRequest.logs req).
Proof.
  intros Ho Hd [Hl|Hp].
  - destruct (update_task_existing tid req w o d Ho Hd Hl)
      as (d' & w' & R & L & _ & n & s & p & u & l & _ & du & ss & c & lg).
    exists d', w'. repeat split; assumption.
  - destruct (set_step tid req w o d Ho Hd)
      as (d2 & w2 & R2 & L2 & _ & n & s & p & u & l & _ & du & ss & c & lg).
    exists d2, w2. split.
    { unfold update_task.
      unfold bind at 1. rewrite (push_step_skipped tid req w Hp).
      unfold bind at 1. rewrite R2.
      unfold bind, oid, find_one, lift, ret. rewrite Ho. simpl.
      rewrite L2. reflexivity. }
    unfold pushed_logs. rewrite Hp. repeat split; assumption.
Qed.

(** A push onto stored logs that hold null: the store refuses it, the
    update stops there and nothing is written. *)
Lemma update_task_refused tid req w o d line :
  ObjectId_of_str tid = Some o ->
  lookup o (db_task w) = Some d ->
  Doc.logs d = Null ->
  pushes req = Some line ->
  update_task tid req w
  = (Err WriteError, mk_World (db_task w) (S (ticks w))).
Proof.
  intros Ho Hd Hl Hp. unfold update_task, pushes in *.
  destruct (get (UpdateTaskRequest.append_log req)) as [line0|];
    [|discriminate].
  destruct (truthy line0); [|discriminate].
  unfold bind, when, oid, utcnow, update_one, ret. rewrite Ho. simpl.
  rewrite Hd. unfold Doc.push_logs. rewrite Hl. reflexivity.
Qed.

(** C10, as the code has it.  Partial update tells a key that is absent
    from a key given as null: on an existing task, each of name, status,
    progress, user, llm, duration, steps, canvas and logs that the request
    gives as null is null in the stored record afterwards, while a key the
    request leaves out keeps the stored value; unless the store refuses the
    request's push: when the stored logs hold null and append_log is a
    non-empty string, the update fails at the push and nothing is
    written. *)
Theorem explicit_null_is_written
    (tid : string) (req : UpdateTaskRequest.t) (w : World)
    (o : ObjectId) (d : Doc.t) :
  ObjectId_of_str tid = Some o ->
  lookup o (db_task w) = Some d ->
  ((Doc.logs d <> Null \/ pushes req = None) ->
   exists d' r w',
     update_task tid req w = (r, w')
     /\ lookup o (db_task w') = Some d'
     /\ ((UpdateTaskRequest.name req = Null -> Doc.name d' = Null)
         /\ (UpdateTaskRequest.status req = Null -> Doc.status d' = Null)
         /\ (UpdateTaskRequest.progress req = Null -> Doc.progress d' = Null)
         /\ (UpdateTaskRequest.user req = Null -> Doc.user d' = Null)
         /\ (UpdateTaskRequest.llm req = Null -> Doc.llm d' = Null)
         /\ (UpdateTaskRequest.duration req = Null -> Doc.duration d' = Null)
         /\ (UpdateTaskRequest.steps req = Null -> Doc.steps d' = Null)
         /\ (UpdateTaskRequest.canvas req = Null -> Doc.canvas d' = Null)
         /\ (UpdateTaskRequest.logs req = Null -> Doc.logs d' = Null))
     /\ ((UpdateTaskRequest.name req = Unset -> Doc.name d' = Doc.name d)
         /\ (UpdateTaskRequest.status req = Unset ->
             Doc.status d' = Doc.status d)
         /\ (UpdateTaskRequest.progress req = Unset ->
             Doc.progress d' = Doc.progress d)
         /\ (UpdateTaskRequest.user req = Unset -> Doc.user d' = Doc.user d)
         /\ (UpdateTaskRequest.llm req = Unset -> Doc.llm d' = Doc.llm d)
         /\ (UpdateTaskRequest.duration req = Unset ->
             Doc.duration d' = Doc.duration d)
         /\ (UpdateTaskRequest.steps req = Unset ->
             Doc.steps d' = Doc.steps d)
         /\ (UpdateTaskRequest.canvas req = Unset ->
             Doc.canvas d' = Doc.canvas d)
         /\ (UpdateTaskRequest.logs req = Unset ->
             UpdateTaskRequest.append_log req = Unset ->
             Doc.logs d' = Doc.logs d)))
  /\ (forall line,
        Doc.logs d = Null -> pushes req = Some line ->
        exists w',
          update_task tid req w = (Err WriteError, w')
          /\ db_task w' = db_task w
          /\ http_status WriteError = 500%Z).
Proof.
  intros Ho Hd. split.
  - intros Hok.
    destruct (update_task_stored tid req w o d Ho Hd Hok)
      as (d' & w' & R & L & n & s & p & u & l & du & ss & c & lg).
    exists d', (serialize_task o d'), w'.
    do 2 (split; [assumption|]).
    rewrite n, s, p, u, l, du, ss, c, lg.
    split; repeat split; try (intros ->; reflexivity).
    intros -> E. unfold pushed_logs, pushes. now rewrite E.
  - intros line Hl Hp. eexists. split.
    + apply (update_task_refused tid req w o d line Ho Hd Hl Hp).
    + split; reflexivity.
Qed.

Lemma truthy_iff (s : string) : truthy s = true <-> s <> EmptyString.
Proof.
  unfold truthy. rewrite negb_true_iff. split.
  - intros E ->. discriminate.
  - intros Hne. destruct (String.eqb s EmptyString) eqn:E; [|reflexivity].
    apply String.eqb_eq in E. contradiction.
Qed.

(** C2, as the code has it.  When an update of an existing task gives both
    logs, as a replacement, and append_log, the push is made first and the
    replacement second: the logs stored and returned are the replacement,
    whatever append_log holds, so the appended entry is in the final logs
    only when the replacement contains it; unless the store refuses the
    push: when the stored logs hold null and append_log is a non-empty
    string, the update fails at the push and the replacement is not
    written. *)
Theorem logs_replacement_wins
    (tid : string) (req : UpdateTaskRequest.t) (w : World)
    (o : ObjectId) (d : Doc.t) (l : list string) (a : string) :
  ObjectId_of_str tid = Some o ->
  lookup o (db_task w) = Some d ->
  UpdateTaskRequest.logs req = Val l ->
  UpdateTaskRequest.append_log req = Val a ->
  ((Doc.logs d <> Null \/ a = EmptyString) ->
   exists d' r w',
     update_task tid req w = (r, w')
     /\ lookup o (db_task w') = Some d'
     /\ Doc.logs d' = Val l
     /\ r = serialize_task o d'
     /\ (forall t', r = Ok t' -> Task.logs t' = l))
  /\ (forall t,
        get_task tid w = (Ok t, w) ->
        UpdateTaskRequest.validate req = true -> keeps_shape req = true ->
        exists t' w',
          update_task tid req w = (Ok t', w') /\ Task.logs t' = l)
  /\ (Doc.logs d = Null -> a <> EmptyString ->
      exists w',
        update_task tid req w = (Err WriteError, w')
        /\ db_task w' = db_task w
        /\ http_status WriteError = 500%Z).
Proof.
  intros Ho Hd Hl Ha. split; [|split].
  - intros Hok.
    assert (Hok' : Doc.logs d <> Null \/ pushes req = None).
    { destruct Hok as [H| ->]; [now left|right].
      unfold pushes. now rewrite Ha. }
    destruct (update_task_stored tid req w o d Ho Hd Hok')
      as (d' & w' & R & L & _ & _ & _ & _ & _ & _ & _ & _ & lg).
    rewrite Hl in lg. simpl in lg.
    exists d', (serialize_task o d'), w'.
    repeat split; auto.
    intros t' E. apply serialize_task_Ok in E.
    destruct E as (_ & _ & _ & _ & _ & _ & _ & _ & _ & _ & E & _).
    rewrite lg in E. simpl in E. congruence.
  - intros t Hg Hv Hk.
    destruct (update_task_total tid req w t Hg Hv Hk) as (t' & w' & Hu).
    exists t', w'. split; [exact Hu|].
    destruct (update_task_returns _ _ _ _ _ _ Hg Hu)
      as (_ & _ & _ & _ & _ & _ & _ & _ & _ & _ & _ & lg).
    rewrite lg. unfold logs_after. now rewrite Hl.
  - intros Hn Hne. eexists. split.
    + apply (update_task_refused tid req w o d a Ho Hd Hn).
      unfold pushes. rewrite Ha. simpl.
      apply truthy_iff in Hne. now rewrite Hne.
    + split; reflexivity.
Qed.

(** C4, as the code has it.  When an update of an existing task gives
    append_log as a string that is not empty and does not give logs, the
    task's logs afterwards are the previous logs followed by that string
    as one new last entry.  An empty append_log appends nothing. *)
Theorem append_log_appends
    (tid : string) (req : UpdateTaskRequest.t) (w : World) (t : Task.t)
    (line : string) :
  get_task tid w = (Ok t, w) ->
  UpdateTaskRequest.append_log req = Val line ->
  UpdateTaskRequest.logs req = Unset ->
  (UpdateTaskRequest.validate req = true -> keeps_shape req = true ->
   exists t' w', update_task tid req w = (Ok t', w'))
  /\ (forall t' w',
        update_task tid req w = (Ok t', w') ->
        (line <> EmptyString -> Task.logs t' = (Task.logs t ++ [line])%list)
        /\ (line = EmptyString -> Task.logs t' = Task.logs t)).
Proof.
  intros Hg Ha Hl. split.
  - intros Hv Hk. now apply (update_task_total tid req w t).
  - intros t' w' Hu.
    destruct (update_task_returns _ _ _ _ _ _ Hg Hu)
      as (_ & _ & _ & _ & _ & _ & _ & _ & _ & _ & _ & lg).
    rewrite lg. unfold logs_after, pushes. rewrite Hl, Ha. simpl.
    split.
    + intros Hne. apply truthy_iff in Hne. now rewrite Hne.
    + intros ->. reflexivity.
Qed.

(* ------------------------------------------------------------------ *)
(** ** The bounds of progress                                          *)
(* ------------------------------------------------------------------ *)

Lemma steps_rejected (ss : list Step.t) (s : Step.t) (p : Z) :
  In s ss -> Step.progress s = Some p -> ge_le 0 100 p = false ->
  forallb Step.validate ss = false.
Proof.
  intros Hin Hp Hr.
  destruct (forallb Step.validate ss) eqn:E; [|reflexivity].
  rewrite forallb_forall in E. specialize (E s Hin).
  unfold Step.validate in E. rewrite Hp in E. simpl in E.
  rewrite Hr, andb_false_r in E. discriminate.
Qed.

Lemma PATCH_rejected tid b w :
  UpdateTaskRequest.validate (declared b) = false ->
  PATCH_api_tasks tid b w = (Err RequestValidationError, w).
Proof.
  intros H. unfold PATCH_api_tasks, UpdateTaskRequest.model_validate.
  now rewrite H.
Qed.

(** C5, as the code has it.  A progress of -1 or 101 is refused, as a
    client input error and with the store as it was, for the task in an
    update request and for any step in a create or an update request; 0
    and 100 are accepted there.  A create request has no progress of its
    own: a body key the model does not declare is dropped, and the task is
    created with progress 0. *)
Theorem progress_bounds_checked (bad ok : Z) :
  In bad [-1; 101]%Z ->
  In ok [0; 100]%Z ->
  Bad_Request RequestValidationError = true
  /\ (forall tid b w,
        UpdateTaskRequest.progress (declared b) = Val bad ->
        PATCH_api_tasks tid b w = (Err RequestValidationError, w))
  /\ (forall tid b w ss s,
        UpdateTaskRequest.steps (declared b) = Val ss ->
        In s ss -> Step.progress s = Some bad ->
        PATCH_api_tasks tid b w = (Err RequestValidationError, w))
  /\ (forall b w ss s,
        CreateTaskRequest.k_steps (declared b) = Val ss ->
        In s ss -> Step.progress s = Some bad ->
        POST_api_tasks b w = (Err RequestValidationError, w))
  /\ (forall n st l d,
        Step.validate (Step.mk n st l (Some ok) d)
        = Step.validate (Step.mk n st l None d))
  /\ (forall n st u l d ss cv lg a,
        UpdateTaskRequest.validate
          (UpdateTaskRequest.mk n st (Val ok) u l d ss cv lg a)
        = UpdateTaskRequest.validate
            (UpdateTaskRequest.mk n st Unset u l d ss cv lg a))
  /\ (forall tid w t,
        get_task tid w = (Ok t, w) ->
        exists t' w',
          PATCH_api_tasks tid (mk_body (only_progress ok) []) w = (Ok t', w')
          /\ Task.progress t' = ok)
  /\ (forall k e w,
        POST_api_tasks (mk_body k e) w = POST_api_tasks (mk_body k []) w)
  /\ (forall k e req w,
        CreateTaskRequest.model_validate (mk_body k []) = Some req ->
        ObjectId_of_str (str_of_ObjectId (new_ObjectId (db_task w)))
        = Some (new_ObjectId (db_task w)) ->
        exists t w',
          POST_api_tasks (mk_body k e) w = (Ok t, w')
          /\ Task.progress t = 0%Z).
Proof.
  intros Hbad Hok.
  assert (Rbad : ge_le 0 100 bad = false)
    by (destruct Hbad as [<-|[<-|[]]]; reflexivity).
  assert (Rok : ge_le 0 100 ok = true)
    by (destruct Hok as [<-|[<-|[]]]; reflexivity).
  split; [reflexivity|].
  split; [|split; [|split; [|split; [|split; [|split; [|split]]]]]].
  - intros tid b w Hp. apply PATCH_rejected.
    unfold UpdateTaskRequest.validate. rewrite Hp. simpl.
    now rewrite Rbad, andb_false_r.
  - intros tid b w ss s Hss Hin Hp. apply PATCH_rejected.
    unfold UpdateTaskRequest.validate. rewrite Hss. simpl.
    rewrite (steps_rejected ss s bad Hin Hp Rbad).
    now rewrite andb_false_r.
  - intros b w ss s Hss Hin Hp.
    unfold POST_api_tasks, CreateTaskRequest.model_validate.
    rewrite Hss. simpl.
    rewrite (steps_rejected ss s bad Hin Hp Rbad).
    destruct (CreateTaskRequest.k_name (declared b)); try reflexivity.
    destruct (CreateTaskRequest.str_default _ _); try reflexivity.
    destruct (CreateTaskRequest.str_default _ _); reflexivity.
  - intros n st l d. unfold Step.validate. simpl. now rewrite Rok.
  - intros n st u l d ss cv lg a. unfold UpdateTaskRequest.validate.
    simpl. now rewrite Rok.
  - intros tid w t Hg.
    assert (V : UpdateTaskRequest.validate (only_progress ok) = true).
    { change (UpdateTaskRequest.validate (only_progress ok))
        with (true && ge_le 0 100 ok && true && true).
      now rewrite Rok. }
    destruct (update_task_total tid (only_progress ok) w t Hg V eq_refl)
      as (t' & w' & Hu).
    exists t', w'.
    unfold PATCH_api_tasks, UpdateTaskRequest.model_validate.
    cbn [declared]. rewrite V. split; [exact Hu|].
    destruct (update_task_returns _ _ _ _ _ _ Hg Hu)
      as (_ & _ & _ & _ & _ & p & _).
    exact p.
  - reflexivity.
  - intros k e req w Hv Hid.
    destruct (POST_api_tasks_run (mk_body k e) req w Hv Hid)
      as (t & w' & Hp & -> & _).
    eexists _, w'. split; [exact Hp|reflexivity].
Qed.

(* ------------------------------------------------------------------ *)
(** ** Reads, and how reads and writes compose                         *)
(* ------------------------------------------------------------------ *)

Lemma get_task_world (tid : string) (w : World) : snd (get_task tid w) = w.
Proof.
  unfold get_task, bind, oid, find_one, lift, raise, ret.
  destruct (ObjectId_of_str tid) as [o|]; simpl; [|reflexivity].
  destruct (lookup o (db_task w)); reflexivity.
Qed.

(** X1. Read-one is a pure read: whatever it answers, the collection and
    the clock are as before, so a second read gives the same answer. *)
Theorem get_task_reads_only (tid : string) (w : World) :
  snd (get_task tid w) = w
  /\ get_task tid (snd (get_task tid w)) = get_task tid w.
Proof.
  pose proof (get_task_world tid w) as H.
  split; [exact H|]. now rewrite H.
Qed.

(** X2. What an update of a readable task answers, a task or a failure, is
    what read-one answers right after it. *)
Theorem update_answers_as_next_read
    (tid : string) (req : UpdateTaskRequest.t) (w : World) (t : Task.t)
    (r : result Task.t) (w' : World) :
  get_task tid w = (Ok t, w) ->
  update_task tid req w = (r, w') ->
  get_task tid w' = (r, w').
Proof.
  intros Hg Hu.
  destruct (get_task_Ok _ _ _ Hg) as (o & d & Ho & Hd & Hs).
  destruct (update_task_existing tid req w o d Ho Hd (logs_not_Null _ _ _ Hs))
    as (d' & w1 & R & L & _).
  rewrite R in Hu. injection Hu as <- <-.
  now apply get_task_found.
Qed.

(** X3. An update that has nothing to write is a read: with no record key
    in the request and append_log absent, null or empty, update answers as
    read-one does on any id, and writes nothing, not even the stamp. *)
Theorem update_without_keys_is_a_read
    (tid : string) (req : UpdateTaskRequest.t) (w : World) :
  Doc.nonempty (updates_of req) = false ->
  pushes req = None ->
  update_task tid req w = get_task tid w.
Proof.
  intros Hn Hp. unfold update_task, get_task, pushes in *.
  rewrite Hn.
  destruct (get (UpdateTaskRequest.append_log req)) as [line|];
    [destruct (truthy line); [discriminate|]|]; reflexivity.
Qed.

Lemma serialize_task_Err o d e :
  serialize_task o d = Err e -> e = ValidationError.
Proof.
  unfold serialize_task, Task_of_keys.
  destruct (get (Doc.name d)); [|congruence].
  destruct (defaulted "queued" (Doc.status d)); [|congruence].
  destruct (defaulted 0%Z (Doc.progress d)); [|congruence].
  destruct (defaulted "You" (Doc.user d)); [|congruence].
  destruct (defaulted "Claude Sonnet 4.5" (Doc.llm d)); [|congruence].
  destruct (defaulted [] (Doc.steps d)); [|congruence].
  destruct (defaulted [] (Doc.canvas d)); [|congruence].
  destruct (defaulted [] (Doc.logs d)); [|congruence].
  match goal with |- context [Task.validate ?x] =>
    destruct (Task.validate x) end; congruence.
Qed.

Lemma set_key_Null {A} (old new : field A) :
  is_null new = true -> set_key old new = Null.
Proof. destruct new; simpl; congruence. Qed.

Lemma null_on_required_key_aux
    (tid : string) (req : UpdateTaskRequest.t) (w : World) (t : Task.t) :
  get_task tid w = (Ok t, w) ->
  keeps_shape req = false ->
  exists w',
    update_task tid req w = (Err ValidationError, w')
    /\ get_task tid w' = (Err ValidationError, w').
Proof.
  intros Hg Hk.
  destruct (get_task_Ok _ _ _ Hg) as (o & d & Ho & Hd & Hs).
  destruct (update_task_existing tid req w o d Ho Hd (logs_not_Null _ _ _ Hs))
    as (d' & w' & R & L & _ & n & s & p & u & l & _ & _ & ss & c & lg).
  assert (E : serialize_task o d' = Err ValidationError).
  { destruct (serialize_task o d') as [t'|e] eqn:S';
      [|now rewrite (serialize_task_Err _ _ _ S')].
    exfalso. apply serialize_task_Ok in S'.
    destruct S' as (_ & n1 & s1 & p1 & u1 & l1 & _ & _ & ss1 & c1 & lg1 & _).
    unfold keeps_shape in Hk. apply negb_false_iff in Hk.
    rewrite !orb_true_iff in Hk.
    destruct Hk as [[[[[[[Hk|Hk]|Hk]|Hk]|Hk]|Hk]|Hk]|Hk].
    - rewrite n, (set_key_Null _ _ Hk) in n1. discriminate.
    - rewrite s, (set_key_Null _ _ Hk) in s1. discriminate.
    - rewrite p, (set_key_Null _ _ Hk) in p1. discriminate.
    - rewrite u, (set_key_Null _ _ Hk) in u1. discriminate.
    - rewrite l, (set_key_Null _ _ Hk) in l1. discriminate.
    - rewrite ss, (set_key_Null _ _ Hk) in ss1. discriminate.
    - rewrite c, (set_key_Null _ _ Hk) in c1. discriminate.
    - rewrite lg, (set_key_Null _ _ Hk) in lg1. discriminate. }
  exists w'. rewrite R, E. split; [reflexivity|].
  rewrite (get_task_found _ _ _ _ Ho L). now rewrite E.
Qed.

(** X4. A null on a key that Task does not take as null breaks the task:
    when an update of a readable task gives null for name, status, progress,
    user, llm, steps, canvas or logs, the null is stored, the update fails
    as a server error, and so does every read-one of the task after it. *)
Theorem null_on_required_key_breaks_task
    (tid : string) (req : UpdateTaskRequest.t) (w : World) (t : Task.t) :
  get_task tid w = (Ok t, w) ->
  keeps_shape req = false ->
  exists w',
    update_task tid req w = (Err ValidationError, w')
    /\ get_task tid w' = (Err ValidationError, w')
    /\ http_status ValidationError = 500%Z
    /\ forall r w2, update_task tid no_keys w' = (r, w2) ->
                    r = Err ValidationError.
Proof.
  intros Hg Hk.
  destruct (null_on_required_key_aux tid req w t Hg Hk) as (w' & U & G).
  exists w'. split; [exact U|]. split; [exact G|]. split; [reflexivity|].
  intros r w2 H.
  change (update_task tid no_keys w') with (get_task tid w') in H.
  rewrite G in H. now injection H as <- _.
Qed.

(* ------------------------------------------------------------------ *)
(** ** Creation and the rest of the collection                         *)
(* ------------------------------------------------------------------ *)

Lemma lookup_app_Some o c x d :
  lookup o c = Some d -> lookup o (c ++ x) = Some d.
Proof.
  induction c as [|[o1 d1] c IH]; simpl; [discriminate|].
  destruct (N.eqb o o1); auto.
Qed.

(** The store after the create route: as it was, or one document longer. *)
Lemma POST_api_tasks_store b w r w' :
  POST_api_tasks b w = (r, w') ->
  (exists e, r = Err e /\ db_task w' = db_task w)
  \/ (exists d, db_task w'
                = (db_task w ++ [(new_ObjectId (db_task w), d)])%list).
Proof.
  unfold POST_api_tasks.
  destruct (CreateTaskRequest.model_validate b) as [req|].
  - unfold create_task, bind, utcnow, lift, Task_new, create_document,
      insert_one, ret, find_one, raise.
    match goal with |- context [Task.validate ?x] =>
      destruct (Task.validate x) end; simpl.
    + destruct (ObjectId_of_str _) as [o|]; simpl.
      * match goal with |- context [lookup o ?c] =>
          destruct (lookup o c) end; simpl;
          intros H; injection H as <- <-; right; eexists; reflexivity.
      * intros H; injection H as <- <-; right; eexists; reflexivity.
    + intros H; injection H as <- <-. left. eexists. split; reflexivity.
  - unfold raise. intros H; injection H as <- <-.
    left. eexists. split; reflexivity.
Qed.

(** X5. Creation leaves what is stored alone: whatever the create route
    answers, every document found before is found unchanged after it and
    every task that read back before reads back the same; when it answers
    with a task, the collection is exactly one document longer. *)
Theorem create_keeps_existing_tasks
    (b : body CreateTaskRequest.keys) (w : World)
    (r : result Task.t) (w' : World) :
  POST_api_tasks b w = (r, w') ->
  (forall o d, lookup o (db_task w) = Some d ->
               lookup o (db_task w') = Some d)
  /\ (forall tid t, get_task tid w = (Ok t, w) ->
                    get_task tid w' = (Ok t, w'))
  /\ (forall t, r = Ok t ->
                length (db_task w') = S (length (db_task w))).
Proof.
  intros Hp.
  assert (K : forall o d, lookup o (db_task w) = Some d ->
                          lookup o (db_task w') = Some d).
  { intros o d Hd.
    destruct (POST_api_tasks_store _ _ _ _ Hp) as [(e & _ & ->)|(d0 & ->)];
      [exact Hd|now apply lookup_app_Some]. }
  split; [exact K|]. split.
  - intros tid t Hg.
    destruct (get_task_Ok _ _ _ Hg) as (o & d & Ho & Hd & Hs).
    rewrite (get_task_found _ _ _ _ Ho (K _ _ Hd)). now rewrite Hs.
  - intros t ->.
    destruct (POST_api_tasks_store _ _ _ _ Hp) as [(e & He & _)|(d0 & ->)];
      [discriminate|].
    rewrite length_app. simpl. lia.
Qed.

(** X6. A created task can be read back: the id the create route answers
    with resolves, right after, to the very task it answered with; and that
    id was not in use before. *)
Theorem create_then_read
    (b : body CreateTaskRequest.keys) (req : CreateTaskRequest.t)
    (w : World) :
  CreateTaskRequest.model_validate b = Some req ->
  ObjectId_of_str (str_of_ObjectId (new_ObjectId (db_task w)))
  = Some (new_ObjectId (db_task w)) ->
  exists t w' tid,
    POST_api_tasks b w = (Ok t, w')
    /\ Task.id t = Some tid
    /\ get_task tid w' = (Ok t, w')
    /\ get_task tid w = (Err (HTTPException 404 "Task not found"), w).
Proof.
  intros Hv Hid.
  destruct (POST_api_tasks_run b req w Hv Hid)
    as (t & w' & Hp & Ht & Hfresh & Hg).
  exists t, w', (str_of_ObjectId (new_ObjectId (db_task w))).
  split; [exact Hp|]. split; [now rewrite Ht|]. split; [exact Hg|].
  unfold get_task, bind, oid, find_one, ret, raise.
  rewrite Hid. simpl. now rewrite Hfresh.
Qed.

(* ------------------------------------------------------------------ *)
(** ** An update and the rest of the collection                        *)
(* ------------------------------------------------------------------ *)

Lemma others_kept_refl tg w : others_kept tg w w.
Proof. split; auto. Qed.

Lemma others_kept_ticks tg w n :
  others_kept tg w (mk_World (db_task w) n).
Proof. split; auto. Qed.

Lemma others_kept_trans tg w1 w2 w3 :
  others_kept tg w1 w2 -> others_kept tg w2 w3 -> others_kept tg w1 w3.
Proof.
  intros [H1 K1] [H2 K2]. split; [congruence|].
  intros o Hne. now rewrite K2, K1.
Qed.

Lemma keeps_bind {A B} tg (m : M A) (k : A -> M B) :
  keeps_others tg m ->
  (forall a w w1, m w = (Ok a, w1) -> keeps_others tg (k a)) ->
  keeps_others tg (bind m k).
Proof.
  intros Hm Hk w r w'. unfold bind.
  destruct (m w) as [[a|e] w1] eqn:E.
  - intros H. eapply others_kept_trans; [eapply Hm; eauto|].
    eapply Hk; eauto.
  - intros H. injection H as <- <-. eapply Hm; eauto.
Qed.

Lemma keeps_pure {A} tg (r : result A) : keeps_others tg (lift r).
Proof. intros w r' w' H. injection H as <- <-. apply others_kept_refl. Qed.

Lemma keeps_utcnow tg : keeps_others tg utcnow.
Proof.
  intros w r w' H. injection H as <- <-. apply others_kept_ticks.
Qed.

Lemma keeps_oid tg tid : keeps_others tg (oid tid).
Proof.
  intros w r w'. unfold oid, ret, raise.
  destruct (ObjectId_of_str tid); intros H; injection H as <- <-;
    apply others_kept_refl.
Qed.

Lemma oid_Ok tid w o w1 :
  oid tid w = (Ok o, w1) -> ObjectId_of_str tid = Some o.
Proof.
  unfold oid, ret, raise. destruct (ObjectId_of_str tid); congruence.
Qed.

Lemma keeps_find_one tg o : keeps_others tg (find_one o).
Proof. intros w r w' H. injection H as <- <-. apply others_kept_refl. Qed.

Lemma map_fst_replace o d c : map fst (replace o d c) = map fst c.
Proof.
  induction c as [|[o1 d1] c IH]; simpl; [reflexivity|].
  destruct (N.eqb o o1); simpl; congruence.
Qed.

Lemma keeps_update_one o push s :
  keeps_others (Some o) (update_one o push s).
Proof.
  intros w r w'. unfold update_one.
  destruct (lookup o (db_task w)) as [d|];
    [|intros H; injection H as <- <-; apply others_kept_refl].
  destruct (match push with None => Some d | Some v => Doc.push_logs d v end);
    intros H; injection H as <- <-; [|apply others_kept_refl].
  split; simpl.
  - apply map_fst_replace.
  - intros o' Hne. apply lookup_replace_other. congruence.
Qed.

Lemma keeps_when tg b (m : M unit) :
  keeps_others tg m -> keeps_others tg (when b m).
Proof.
  intros Hm. destruct b; [exact Hm|]. apply (keeps_pure tg (Ok tt)).
Qed.

Lemma keeps_update_task tid req :
  keeps_others (ObjectId_of_str tid) (update_task tid req).
Proof.
  unfold update_task.
  apply keeps_bind; [|intros _ _ _ _; apply keeps_bind].
  - destruct (get (UpdateTaskRequest.append_log req)) as [line|];
      [|apply (keeps_pure _ (Ok tt))].
    apply keeps_when.
    apply keeps_bind; [apply keeps_oid|]. intros o w w1 Ho.
    apply keeps_bind; [apply keeps_utcnow|]. intros now _ _ _.
    rewrite (oid_Ok _ _ _ _ Ho). apply keeps_update_one.
  - apply keeps_when.
    apply keeps_bind; [apply keeps_utcnow|]. intros now _ _ _.
    apply keeps_bind; [apply keeps_oid|]. intros o w w1 Ho.
    rewrite (oid_Ok _ _ _ _ Ho). apply keeps_update_one.
  - intros _ _ _ _.
    apply keeps_bind; [apply keeps_oid|]. intros o _ _ _.
    apply keeps_bind; [apply keeps_find_one|]. intros [d|] _ _ _.
    + apply keeps_pure.
    + apply (keeps_pure _ (Err (HTTPException 404 "Task not found"))).
Qed.

(** X7. An update touches one document at most: whatever the request and
    whatever the answer, no document is added or removed (there is no
    upsert), every document but the one the id names is as it was, and a
    task under another id reads back as before. *)
Theorem update_touches_one_document
    (tid : string) (req : UpdateTaskRequest.t) (w : World)
    (r : result Task.t) (w' : World) :
  update_task tid req w = (r, w') ->
  map fst (db_task w') = map fst (db_task w)
  /\ (forall o, ObjectId_of_str tid <> Some o ->
                lookup o (db_task w') = lookup o (db_task w))
  /\ (forall tid', ObjectId_of_str tid' <> ObjectId_of_str tid ->
                   fst (get_task tid' w') = fst (get_task tid' w)).
Proof.
  intros Hu. destruct (keeps_update_task tid req w r w' Hu) as [Hm Hk].
  split; [exact Hm|]. split; [exact Hk|].
  intros tid' Hne. unfold get_task, bind, oid, find_one, lift, ret, raise.
  destruct (ObjectId_of_str tid') as [o'|] eqn:E; simpl; [|reflexivity].
  rewrite (Hk o') by congruence.
  destruct (lookup o' (db_task w)); reflexivity.
Qed.

(* ------------------------------------------------------------------ *)
(** ** The stamp of an update                                          *)
(* ------------------------------------------------------------------ *)

Lemma push_step_stamp tid req w o d :
  ObjectId_of_str tid = Some o ->
  lookup o (db_task w) = Some d ->
  Doc.logs d <> Null ->
  exists d1 w1,
    match get (UpdateTaskRequest.append_log req) with
    | Some line =>
        when (truthy line)
          (o <- oid tid ;;
           now <- utcnow ;;
           update_one o (Some line) (Doc.with_updated_at Doc.empty now))
    | None => ret tt
    end w = (Ok tt, w1)
    /\ lookup o (db_task w1) = Some d1
    /\ Doc.updated_at d1
       = match pushes req with
         | Some _ => Val (clock (ticks w))
         | None => Doc.updated_at d
         end
    /\ ticks w1
       = (match pushes req with Some _ => 1 | None => 0 end + ticks w)%nat.
Proof.
  intros Ho Hd Hl. unfold pushes.
  destruct (get (UpdateTaskRequest.append_log req)) as [line|];
    [destruct (truthy line)|]; unfold when.
  - unfold bind, oid, utcnow. rewrite Ho. simpl.
    destruct (Doc.push_logs d line) as [d1|] eqn:Hp.
    + erewrite update_one_found by (simpl; eauto).
      eexists _, _. split; [reflexivity|]. simpl.
      split; [eapply lookup_replace_same; eauto|].
      split; reflexivity.
    + unfold Doc.push_logs in Hp. destruct (Doc.logs d); congruence.
  - exists d, w. repeat split; auto.
  - exists d, w. repeat split; auto.
Qed.

Lemma set_step_stamp tid req w o d :
  ObjectId_of_str tid = Some o ->
  lookup o (db_task w) = Some d ->
  exists d2 w2,
    when (Doc.nonempty (updates_of req))
      (now <- utcnow ;;
       o <- oid tid ;;
       update_one o None (Doc.with_updated_at (updates_of req) now)) w
    = (Ok tt, w2)
    /\ lookup o (db_task w2) = Some d2
    /\ Doc.updated_at d2
       = (if Doc.nonempty (updates_of req)
          then Val (clock (ticks w)) else Doc.updated_at d)
    /\ ticks w2
       = ((if Doc.nonempty (updates_of req) then 1 else 0) + ticks w)%nat.
Proof.
  intros Ho Hd. unfold when.
  destruct (Doc.nonempty (updates_of req)) eqn:E.
  - unfold bind, utcnow, oid. rewrite Ho. simpl.
    erewrite update_one_found by (simpl; eauto).
    eexists _, _. split; [reflexivity|]. simpl.
    split; [eapply lookup_replace_same; eauto|].
    split; reflexivity.
  - exists d, w. repeat split; auto.
Qed.

(** X8. An update of a readable task stamps the stored updated_at with the
    time of its last write and reads the clock once for each write: the
    push of a non-empty append_log is one write, the set of the record keys
    another.  An update with nothing to write leaves the stamp as it was. *)
Theorem update_stamps_updated_at
    (tid : string) (req : UpdateTaskRequest.t) (w : World) (t : Task.t) :
  get_task tid w = (Ok t, w) ->
  exists o d d' r w',
    ObjectId_of_str tid = Some o
    /\ lookup o (db_task w) = Some d
    /\ update_task tid req w = (r, w')
    /\ lookup o (db_task w') = Some d'
    /\ Doc.updated_at d' = stamp_after req w (Doc.updated_at d)
    /\ ticks w' = (writes_of req + ticks w)%nat.
Proof.
  intros Hg.
  destruct (get_task_Ok _ _ _ Hg) as (o & d & Ho & Hd & Hs).
  destruct (push_step_stamp tid req w o d Ho Hd (logs_not_Null _ _ _ Hs))
    as (d1 & w1 & R1 & L1 & S1 & T1).
  destruct (set_step_stamp tid req w1 o d1 Ho L1)
    as (d2 & w2 & R2 & L2 & S2 & T2).
  exists o, d, d2, (serialize_task o d2), w2.
  split; [exact Ho|]. split; [exact Hd|]. split; [|split; [exact L2|]].
  - unfold update_task.
    unfold bind at 1. rewrite R1.
    unfold bind at 1. rewrite R2.
    unfold bind, oid, find_one, lift, ret. rewrite Ho. simpl.
    rewrite L2. reflexivity.
  - rewrite S2, S1, T2, T1. unfold stamp_after, writes_of.
    destruct (pushes req), (Doc.nonempty (updates_of req)); simpl;
      split; try reflexivity; lia.
Qed.

(* ------------------------------------------------------------------ *)
(** ** What the routes answer with                                     *)
(* ------------------------------------------------------------------ *)

Lemma Literal_In (allowed : list string) (s : string) :
  Literal allowed s = true -> In s allowed.
Proof.
  unfold Literal. rewrite existsb_exists.
  intros (x & Hin & E). apply String.eqb_eq in E. now subst.
Qed.

Lemma ge_le_bounds (lo hi z : Z) :
  ge_le lo hi z = true -> (lo <= z <= hi)%Z.
Proof. unfold ge_le. rewrite andb_true_iff, !Z.leb_le. tauto. Qed.

Lemma serialize_task_in_bounds o d t :
  serialize_task o d = Ok t -> in_bounds t.
Proof.
  intros H. apply serialize_task_Ok in H.
  destruct H as (_ & _ & _ & _ & _ & _ & _ & _ & _ & _ & _ & V).
  unfold Task.validate in V. rewrite !andb_true_iff in V.
  destruct V as [[[Vs Vp] Vss] _].
  split; [now apply Literal_In|]. split; [now apply ge_le_bounds|].
  intros s Hin. rewrite forallb_forall in Vss. specialize (Vss s Hin).
  unfold Step.validate in Vss. rewrite andb_true_iff in Vss.
  destruct Vss as [V1 V2].
  split; [now apply Literal_In|].
  intros p Hp. rewrite Hp in V2. now apply ge_le_bounds.
Qed.

Lemma update_task_Ok_serialized tid req w t w' :
  update_task tid req w = (Ok t, w') ->
  exists o d, serialize_task o d = Ok t.
Proof.
  unfold update_task. unfold bind at 1.
  match goal with |- context [match ?m w with _ => _ end] =>
    destruct (m w) as [[[]|e1] w1] end; [|discriminate].
  unfold bind at 1.
  match goal with |- context [match ?m w1 with _ => _ end] =>
    destruct (m w1) as [[[]|e2] w2] end; [|discriminate].
  unfold bind, oid, find_one, lift, ret, raise.
  destruct (ObjectId_of_str tid) as [o|]; simpl; [|discriminate].
  destruct (lookup o (db_task w2)) as [d|]; simpl; [|discriminate].
  intros H. exists o, d. congruence.
Qed.

Lemma POST_api_tasks_Ok_serialized b w t w' :
  POST_api_tasks b w = (Ok t, w') ->
  exists o d, serialize_task o d = Ok t.
Proof.
  unfold POST_api_tasks.
  destruct (CreateTaskRequest.model_validate b) as [req|]; [|discriminate].
  unfold create_task, bind, utcnow, lift, Task_new, create_document,
    insert_one, ret, find_one, raise.
  match goal with |- context [Task.validate ?x] =>
    destruct (Task.validate x) end; simpl; [|discriminate].
  destruct (ObjectId_of_str _) as [o|]; simpl; [|discriminate].
  match goal with |- context [lookup o ?c] =>
    destruct (lookup o c) as [d|] end; simpl; [|discriminate].
  intros H. exists o, d. congruence.
Qed.

Lemma serialize_all_Ok docs ts :
  serialize_all docs = Ok ts ->
  Forall2 (fun od t => serialize_task (fst od) (snd od) = Ok t) docs ts.
Proof.
  revert ts. induction docs as [|[o d] docs IH]; simpl; intros ts.
  - intros H. injection H as <-. constructor.
  - destruct (serialize_task o d) as [t|e] eqn:E; [|discriminate].
    destruct (serialize_all docs) as [ts'|e]; [|discriminate].
    intros H. injection H as <-. constructor; auto.
Qed.

Lemma list_tasks_run limit w :
  list_tasks limit w = (serialize_all (get_documents (db_task w) limit), w).
Proof. reflexivity. Qed.

(** X9. Every task a route answers with is within the bounds of the
    models, whatever the store holds: its status is one of the four, its
    progress is between 0 and 100, and so are the status and the progress
    of each of its steps.  This holds for read-one, update, create and the
    listing. *)
Theorem answered_tasks_in_bounds :
  (forall tid w t w', get_task tid w = (Ok t, w') -> in_bounds t)
  /\ (forall tid req w t w',
        update_task tid req w = (Ok t, w') -> in_bounds t)
  /\ (forall b w t w', POST_api_tasks b w = (Ok t, w') -> in_bounds t)
  /\ (forall limit w ts w',
        list_tasks limit w = (Ok ts, w') ->
        forall t, In t ts -> in_bounds t).
Proof.
  split; [|split; [|split]].
  - intros tid w t w' H.
    pose proof (get_task_world tid w) as E.
    rewrite H in E. simpl in E. subst w'.
    destruct (get_task_Ok _ _ _ H) as (o & d & _ & _ & Hs).
    now apply (serialize_task_in_bounds o d).
  - intros tid req w t w' H.
    destruct (update_task_Ok_serialized _ _ _ _ _ H) as (o & d & Hs).
    now apply (serialize_task_in_bounds o d).
  - intros b w t w' H.
    destruct (POST_api_tasks_Ok_serialized _ _ _ _ H) as (o & d & Hs).
    now apply (serialize_task_in_bounds o d).
  - intros limit w ts w' H. rewrite list_tasks_run in H.
    injection H as H _. apply serialize_all_Ok in H.
    intros t Hin.
    induction H as [|[o d] t' docs ts Hs _ IH]; [contradiction|].
    destruct Hin as [<-|Hin]; [|auto].
    now apply (serialize_task_in_bounds o d).
Qed.

(* ------------------------------------------------------------------ *)
(** ** Updates in sequence                                             *)
(* ------------------------------------------------------------------ *)

Lemma pushes_Val req line :
  UpdateTaskRequest.append_log req = Val line ->
  line <> EmptyString ->
  pushes req = Some line.
Proof.
  intros E Hne. unfold pushes. rewrite E. simpl.
  apply truthy_iff in Hne. now rewrite Hne.
Qed.

(** X10. Appends accumulate: two updates of a readable task, each with a
    non-empty append_log and no logs key, leave the logs that were there
    followed by the two lines, in the order of the updates. *)
Theorem appends_accumulate
    (tid : string) (req1 req2 : UpdateTaskRequest.t) (w : World) (t : Task.t)
    (a b : string) :
  get_task tid w = (Ok t, w) ->
  UpdateTaskRequest.validate req1 = true -> keeps_shape req1 = true ->
  UpdateTaskRequest.validate req2 = true -> keeps_shape req2 = true ->
  UpdateTaskRequest.logs req1 = Unset ->
  UpdateTaskRequest.logs req2 = Unset ->
  UpdateTaskRequest.append_log req1 = Val a -> a <> EmptyString ->
  UpdateTaskRequest.append_log req2 = Val b -> b <> EmptyString ->
  exists t1 w1 t2 w2,
    update_task tid req1 w = (Ok t1, w1)
    /\ update_task tid req2 w1 = (Ok t2, w2)
    /\ Task.logs t1 = (Task.logs t ++ [a])%list
    /\ Task.logs t2 = (Task.logs t ++ [a; b])%list.
Proof.
  intros Hg V1 K1 V2 K2 L1 L2 A1 Na A2 Nb.
  destruct (update_task_total tid req1 w t Hg V1 K1) as (t1 & w1 & U1).
  destruct (update_task_returns _ _ _ _ _ _ Hg U1)
    as (G1 & _ & _ & _ & _ & _ & _ & _ & _ & _ & _ & lg1).
  destruct (update_task_total tid req2 w1 t1 G1 V2 K2) as (t2 & w2 & U2).
  destruct (update_task_returns _ _ _ _ _ _ G1 U2)
    as (_ & _ & _ & _ & _ & _ & _ & _ & _ & _ & _ & lg2).
  exists t1, w1, t2, w2. split; [exact U1|]. split; [exact U2|].
  unfold logs_after in lg1, lg2.
  rewrite (pushes_Val _ _ A1 Na), L1 in lg1.
  rewrite (pushes_Val _ _ A2 Nb), L2 in lg2. simpl in lg1, lg2.
  split; [exact lg1|]. rewrite lg2, lg1, <- app_assoc. reflexivity.
Qed.

Lemma set_key_idem {A} (x f : field A) :
  set_key (set_key x f) f = set_key x f.
Proof. now destruct f. Qed.

Lemma serialize_task_ext o d d' :
  Doc.name d' = Doc.name d -> Doc.status d' = Doc.status d ->
  Doc.progress d' = Doc.progress d -> Doc.user d' = Doc.user d ->
  Doc.llm d' = Doc.llm d -> Doc.startTime d' = Doc.startTime d ->
  Doc.duration d' = Doc.duration d -> Doc.steps d' = Doc.steps d ->
  Doc.canvas d' = Doc.canvas d -> Doc.logs d' = Doc.logs d ->
  serialize_task o d' = serialize_task o d.
Proof.
  intros n s p u l st du ss c lg. unfold serialize_task, Task_of_keys.
  now rewrite n, s, p, u, l, st, du, ss, c, lg.
Qed.

(** X11. An update that sets keys and pushes nothing can be repeated: when
    it answered a readable task with a task, sending the same request again
    answers with the same task. *)
Theorem set_update_is_idempotent
    (tid : string) (req : UpdateTaskRequest.t) (w : World) (t t1 : Task.t)
    (w1 : World) :
  get_task tid w = (Ok t, w) ->
  pushes req = None ->
  update_task tid req w = (Ok t1, w1) ->
  exists w2, update_task tid req w1 = (Ok t1, w2).
Proof.
  intros Hg Hp U1.
  destruct (get_task_Ok _ _ _ Hg) as (o & d & Ho & Hd & Hs).
  destruct (update_task_existing tid req w o d Ho Hd (logs_not_Null _ _ _ Hs))
    as (d1 & w1' & R1 & L1 & _ & n1 & s1 & p1 & u1 & l1 & st1 & du1 & ss1
        & c1 & lg1).
  rewrite R1 in U1. injection U1 as S1 <-.
  destruct (update_task_existing tid req w1' o d1 Ho L1
              (logs_not_Null _ _ _ S1))
    as (d2 & w2 & R2 & L2 & _ & n2 & s2 & p2 & u2 & l2 & st2 & du2 & ss2
        & c2 & lg2).
  exists w2. rewrite R2, <- S1. f_equal.
  unfold pushed_logs in lg1, lg2. rewrite Hp in lg1, lg2.
  apply serialize_task_ext.
  - now rewrite n2, n1, set_key_idem.
  - now rewrite s2, s1, set_key_idem.
  - now rewrite p2, p1, set_key_idem.
  - now rewrite u2, u1, set_key_idem.
  - now rewrite l2, l1, set_key_idem.
  - exact st2.
  - now rewrite du2, du1, set_key_idem.
  - now rewrite ss2, ss1, set_key_idem.
  - now rewrite c2, c1, set_key_idem.
  - now rewrite lg2, lg1, set_key_idem.
Qed.

(* ------------------------------------------------------------------ *)
(** ** The listing                                                     *)
(* ------------------------------------------------------------------ *)

Lemma serialize_all_Err docs o d e :
  In (o, d) docs -> serialize_task o d = Err e ->
  serialize_all docs = Err ValidationError.
Proof.
  intros Hin He. induction docs as [|[o1 d1] docs IH]; [contradiction|].
  simpl. destruct (serialize_task o1 d1) as [t1|e1] eqn:E1.
  - destruct Hin as [H|Hin]; [injection H as -> ->; congruence|].
    now rewrite (IH Hin).
  - now rewrite (serialize_task_Err _ _ _ E1).
Qed.

Lemma serialize_all_total docs :
  (forall o d, In (o, d) docs -> exists t, serialize_task o d = Ok t) ->
  exists ts, serialize_all docs = Ok ts.
Proof.
  induction docs as [|[o d] docs IH]; intros H; simpl; [now exists []|].
  destruct (H o d (or_introl eq_refl)) as (t & ->).
  destruct IH as (ts & ->); [intros; apply H; now right|].
  now exists (t :: ts).
Qed.

(** X12. The listing is all or nothing.  It answers with one task for each
    document it was handed, in the same order, each under the id of its
    document; one document that does not read back as a Task fails the
    whole listing as a server error; and it changes nothing. *)
Theorem list_tasks_all_or_nothing (limit : Z) (w : World) :
  let docs := get_documents (db_task w) limit in
  snd (list_tasks limit w) = w
  /\ (forall ts,
        fst (list_tasks limit w) = Ok ts ->
        length ts = length docs
        /\ map Task.id ts
           = map (fun od => Some (str_of_ObjectId (fst od))) docs
        /\ Forall2 (fun od t => serialize_task (fst od) (snd od) = Ok t)
                   docs ts)
  /\ (forall o d e,
        In (o, d) docs -> serialize_task o d = Err e ->
        fst (list_tasks limit w) = Err ValidationError)
  /\ ((forall o d, In (o, d) docs -> exists t, serialize_task o d = Ok t) ->
      exists ts, fst (list_tasks limit w) = Ok ts).
Proof.
  intros docs. rewrite list_tasks_run. simpl. fold docs.
  split; [reflexivity|]. split; [|split].
  - intros ts H. apply serialize_all_Ok in H.
    split; [|split; [|exact H]].
    + symmetry. eapply Forall2_length; eauto.
    + induction H as [|[o d] t ds ts Hs _ IH]; [reflexivity|].
      simpl. rewrite IH. f_equal.
      apply serialize_task_Ok in Hs. tauto.
  - intros o d e Hin He. eapply serialize_all_Err; eauto.
  - apply serialize_all_total.
Qed.

(** X13. One broken task breaks the listing: after an update of a readable
    task gave null for a key that Task does not take as null, every listing
    that is handed the task's document fails as a server error. *)
Theorem null_on_required_key_breaks_listing
    (tid : string) (req : UpdateTaskRequest.t) (w : World) (t : Task.t)
    (r : result Task.t) (w' : World) (limit : Z) :
  get_task tid w = (Ok t, w) ->
  keeps_shape req = false ->
  update_task tid req w = (r, w') ->
  (forall o d, ObjectId_of_str tid = Some o ->
               lookup o (db_task w') = Some d ->
               In (o, d) (get_documents (db_task w') limit)) ->
  fst (list_tasks limit w') = Err ValidationError.
Proof.
  intros Hg Hk Hu Hin.
  destruct (get_task_Ok _ _ _ Hg) as (o & d & Ho & Hd & Hs).
  destruct (update_task_existing tid req w o d Ho Hd (logs_not_Null _ _ _ Hs))
    as (d' & w1 & R & L & _).
  destruct (null_on_required_key_aux tid req w t Hg Hk) as (w2 & U & G).
  rewrite R in Hu. injection Hu as <- <-.
  rewrite R in U. injection U as E <-.
  rewrite list_tasks_run. simpl.
  eapply serialize_all_Err; [apply (Hin o d' Ho L)|exact E].
Qed.

(* ------------------------------------------------------------------ *)
(** ** The conversation gate, further                                  *)
(* ------------------------------------------------------------------ *)

Lemma last_or_None_nil {A} (l : list A) :
  last_or_None l = None -> l = [].
Proof.
  induction l as [|x l IH] using rev_ind; [reflexivity|].
  rewrite last_or_None_snoc. discriminate.
Qed.

Lemma last_or_None_Some {A} (l : list A) (m : A) :
  last_or_None l = Some m -> exists h, l = (h ++ [m])%list.
Proof.
  induction l as [|x l IH] using rev_ind; [discriminate|].
  rewrite last_or_None_snoc. intros H. injection H as ->. now exists l.
Qed.

(** X14. The readiness flag, exactly: a reply has readyForTask true if and
    only if the history ends in a user message whose lower-cased text has
    "ready" or "create" somewhere in it, inside a longer word or not. *)
Theorem ready_exactly_on_rule_1 (req : ChatRequest.t) (w : World) :
  exists resp w',
    chat req w = (Ok resp, w')
    /\ (ChatResponse.readyForTask resp = true
        <-> exists h m a b,
              ChatRequest.history req = (h ++ [m])%list
              /\ ChatMessage.role m = "user"
              /\ (lower (ChatMessage.content m) = a ++ "ready" ++ b
                  \/ lower (ChatMessage.content m) = a ++ "create" ++ b)).
Proof.
  eexists _, _. split; [apply chat_run|]. simpl.
  destruct (last_or_None (ChatRequest.history req)) as [m|] eqn:L.
  - destruct (last_or_None_Some _ _ L) as (h & Hh).
    unfold decide.
    destruct (String.eqb (ChatMessage.role m) "user") eqn:R.
    + apply String.eqb_eq in R.
      destruct (str_in "ready" (lower (ChatMessage.content m))) eqn:E1;
        [|destruct (str_in "create" (lower (ChatMessage.content m))) eqn:E2];
        simpl.
      * split; [intros _|reflexivity].
        apply str_in_iff in E1. destruct E1 as (a & b & E1).
        exists h, m, a, b. auto.
      * split; [intros _|reflexivity].
        apply str_in_iff in E2. destruct E2 as (a & b & E2).
        exists h, m, a, b. auto.
      * assert (N : forall h' m' a b,
                  ChatRequest.history req = (h' ++ [m'])%list ->
                  lower (ChatMessage.content m') = a ++ "ready" ++ b
                  \/ lower (ChatMessage.content m') = a ++ "create" ++ b ->
                  False).
        { intros h' m' a b Hh' Hc. rewrite Hh in Hh'.
          apply app_inj_tail in Hh'. destruct Hh' as [_ <-].
          destruct Hc as [Hc|Hc].
          - assert (str_in "ready" (lower (ChatMessage.content m)) = true)
              by (apply str_in_iff; eauto).
            congruence.
          - assert (str_in "create" (lower (ChatMessage.content m)) = true)
              by (apply str_in_iff; eauto).
            congruence. }
        destruct (str_in "metrics" (lower (ChatMessage.content m))
                  || str_in "period" (lower (ChatMessage.content m)));
          simpl; (split; [discriminate|]);
          intros (h' & m' & a & b & Hh' & _ & Hc);
          exact (False_ind _ (N h' m' a b Hh' Hc)).
    + simpl. split; [discriminate|].
      intros (h' & m' & a & b & Hh' & Hr & _). rewrite Hh in Hh'.
      apply app_inj_tail in Hh'. destruct Hh' as [_ <-].
      rewrite Hr in R. discriminate.
  - simpl. split; [discriminate|].
    intros (h' & m' & a & b & Hh' & _).
    apply last_or_None_nil in L. rewrite L in Hh'.
    now destruct h'.
Qed.

(** X15. The gate holds no memory and touches no task: two histories with
    the same last entry get the same answer, whatever came before it, a
    ready answer included; every answer is an assistant message with the
    three quick actions, stamped with the time of the call; and the task
    collection is as it was. *)
Theorem chat_holds_no_memory
    (h1 h2 : list ChatMessage.t) (m : ChatMessage.t) (w : World) :
  chat (ChatRequest.mk (h1 ++ [m])) w = chat (ChatRequest.mk (h2 ++ [m])) w
  /\ forall req,
       exists resp w',
         chat req w = (Ok resp, w')
         /\ db_task w' = db_task w
         /\ ChatMessage.role (ChatResponse.message resp) = "assistant"
         /\ ChatMessage.quickActions (ChatResponse.message resp) = Some quick
         /\ ChatMessage.timestamp (ChatResponse.message resp)
            = Some (clock (ticks w)).
Proof.
  split.
  - rewrite !chat_run. simpl. now rewrite !last_or_None_snoc.
  - intros req. eexists _, _. split; [apply chat_run|].
    repeat split; reflexivity.
Qed.

(* ------------------------------------------------------------------ *)
(** ** What the models refuse                                          *)
(* ------------------------------------------------------------------ *)

Lemma Literal_not_In (allowed : list string) (s : string) :
  ~ In s allowed -> Literal allowed s = false.
Proof.
  intros H. destruct (Literal allowed s) eqn:E; [|reflexivity].
  apply Literal_In in E. contradiction.
Qed.

Lemma forallb_false {A} (f : A -> bool) (l : list A) (x : A) :
  In x l -> f x = false -> forallb f l = false.
Proof.
  intros Hin Hx. destruct (forallb f l) eqn:E; [|reflexivity].
  rewrite forallb_forall in E. rewrite (E x Hin) in Hx. discriminate.
Qed.

(** X16. An update is refused on more than progress: a status outside the
    four, a step whose status is outside the four, a canvas block of a type
    outside the eleven, or a heading level outside 1..3 makes the update a
    client input error before anything is read or written, whatever the
    id. *)
Theorem update_refuses_values_outside_models
    (tid : string) (b : body UpdateTaskRequest.t) (w : World) :
  ((exists s,
      UpdateTaskRequest.status (declared b) = Val s /\ ~ In s Status)
   \/ (exists ss st,
         UpdateTaskRequest.steps (declared b) = Val ss
         /\ In st ss /\ ~ In (Step.status st) StepStatus)
   \/ (exists bs blk,
         UpdateTaskRequest.canvas (declared b) = Val bs
         /\ In blk bs /\ ~ In (Block.type blk) Block.types)
   \/ (exists bs blk md lv,
         UpdateTaskRequest.canvas (declared b) = Val bs
         /\ In blk bs /\ Block.metadata blk = Some md
         /\ BlockMetadata.level md = Some lv /\ (lv < 1 \/ 3 < lv)%Z)) ->
  PATCH_api_tasks tid b w = (Err RequestValidationError, w)
  /\ Bad_Request RequestValidationError = true.
Proof.
  intros H. split; [|reflexivity]. apply PATCH_rejected.
  unfold UpdateTaskRequest.validate.
  destruct H as [(s & E & Hs)|[(ss & st & E & Hin & Hs)
                 |[(bs & blk & E & Hin & Hb)
                  |(bs & blk & md & lv & E & Hin & Em & El & Hlv)]]];
    rewrite E; cbn [get optional].
  - now rewrite (Literal_not_In _ _ Hs).
  - rewrite (forallb_false Step.validate ss st Hin);
      [now rewrite !andb_false_r|].
    unfold Step.validate. now rewrite (Literal_not_In _ _ Hs).
  - rewrite (forallb_false Block.validate bs blk Hin);
      [now rewrite !andb_false_r|].
    unfold Block.validate. now rewrite (Literal_not_In _ _ Hb).
  - rewrite (forallb_false Block.validate bs blk Hin);
      [now rewrite !andb_false_r|].
    unfold Block.validate, BlockMetadata.validate.
    rewrite Em. cbn [optional]. rewrite El. cbn [optional].
    replace (ge_le 1 3 lv) with false; [now rewrite andb_false_r|].
    unfold ge_le. symmetry. apply andb_false_iff.
    destruct Hlv; [left; apply Z.leb_gt|right; apply Z.leb_gt]; lia.
Qed.

(** X17. A create request needs a name and takes defaults for the rest: a
    body with no name, or with null for name, user or llm, is a client
    input error and nothing is stored; a body that gives a name and leaves
    user and llm out creates the task under that name for the user "You"
    with the model "Claude Sonnet 4.5". *)
Theorem create_needs_a_name
    (b : body CreateTaskRequest.keys) (w : World) :
  ((CreateTaskRequest.k_name (declared b) = Unset
    \/ CreateTaskRequest.k_name (declared b) = Null
    \/ CreateTaskRequest.k_user (declared b) = Null
    \/ CreateTaskRequest.k_llm (declared b) = Null) ->
   POST_api_tasks b w = (Err RequestValidationError, w))
  /\ (forall n,
        CreateTaskRequest.k_name (declared b) = Val n ->
        CreateTaskRequest.k_user (declared b) = Unset ->
        CreateTaskRequest.k_llm (declared b) = Unset ->
        optional (forallb Step.validate)
                 (get (CreateTaskRequest.k_steps (declared b))) = true ->
        ObjectId_of_str (str_of_ObjectId (new_ObjectId (db_task w)))
        = Some (new_ObjectId (db_task w)) ->
        exists t w',
          POST_api_tasks b w = (Ok t, w')
          /\ Task.name t = n
          /\ Task.user t = "You"
          /\ Task.llm t = "Claude Sonnet 4.5").
Proof.
  split.
  - intros H. unfold POST_api_tasks, CreateTaskRequest.model_validate.
    destruct H as [E|[E|[E|E]]]; rewrite E; simpl; try reflexivity.
    + destruct (CreateTaskRequest.k_name (declared b)); reflexivity.
    + destruct (CreateTaskRequest.k_name (declared b)); try reflexivity.
      destruct (CreateTaskRequest.str_default _ _); reflexivity.
  - intros n En Eu El Hss Hid.
    assert (Hv : CreateTaskRequest.model_validate b
                 = Some (CreateTaskRequest.mk n "You" "Claude Sonnet 4.5"
                           (get (CreateTaskRequest.k_steps (declared b))))).
    { unfold CreateTaskRequest.model_validate.
      rewrite En, Eu, El. simpl. now rewrite Hss. }
    destruct (POST_api_tasks_run b _ w Hv Hid) as (t & w' & Hp & -> & _).
    eexists _, w'. split; [exact Hp|]. repeat split; reflexivity.
Qed.

(* ------------------------------------------------------------------ *)
(** ** When an update answers with a task                              *)
(* ------------------------------------------------------------------ *)

(** X18. A request that passed validation, sent to a readable task, is
    answered with a task exactly when it gives null for none of name,
    status, progress, user, llm, steps, canvas and logs; a null duration is
    taken and reads back as no duration. *)
Theorem update_answers_task_iff_shape_kept
    (tid : string) (req : UpdateTaskRequest.t) (w : World) (t : Task.t) :
  get_task tid w = (Ok t, w) ->
  UpdateTaskRequest.validate req = true ->
  ((exists t' w', update_task tid req w = (Ok t', w'))
   <-> keeps_shape req = true)
  /\ (forall t' w',
        update_task tid req w = (Ok t', w') ->
        UpdateTaskRequest.duration req = Null ->
        Task.duration t' = None).
Proof.
  intros Hg Hv. split; [split|].
  - intros (t' & w' & Hu).
    destruct (keeps_shape req) eqn:K; [reflexivity|].
    destruct (null_on_required_key_aux tid req w t Hg K) as (w1 & U & _).
    rewrite U in Hu. discriminate.
  - intros K. now apply (update_task_total tid req w t).
  - intros t' w' Hu Ed.
    destruct (update_task_returns _ _ _ _ _ _ Hg Hu)
      as (_ & _ & _ & _ & _ & _ & _ & _ & du & _).
    rewrite du. unfold duration_after. now rewrite Ed.
Qed.

(** X19. Updates compose key by key, the later one winning: after two
    updates of a readable task that were answered with tasks, each of name,
    status, progress, user, llm, steps and canvas is the second request's
    value if it has one, else the first's if it has one, else the value the
    task had. *)
Theorem later_update_wins
    (tid : string) (req1 req2 : UpdateTaskRequest.t) (w w1 w2 : World)
    (t t1 t2 : Task.t) :
  get_task tid w = (Ok t, w) ->
  update_task tid req1 w = (Ok t1, w1) ->
  update_task tid req2 w1 = (Ok t2, w2) ->
  Task.name t2
  = updated (UpdateTaskRequest.name req2)
            (updated (UpdateTaskRequest.name req1) (Task.name t))
  /\ Task.status t2
     = updated (UpdateTaskRequest.status req2)
               (updated (UpdateTaskRequest.status req1) (Task.status t))
  /\ Task.progress t2
     = updated (UpdateTaskRequest.progress req2)
               (updated (UpdateTaskRequest.progress req1) (Task.progress t))
  /\ Task.user t2
     = updated (UpdateTaskRequest.user req2)
               (updated (UpdateTaskRequest.user req1) (Task.user t))
  /\ Task.llm t2
     = updated (UpdateTaskRequest.llm req2)
               (updated (UpdateTaskRequest.llm req1) (Task.llm t))
  /\ Task.steps t2
     = updated (UpdateTaskRequest.steps req2)
               (updated (UpdateTaskRequest.steps req1) (Task.steps t))
  /\ Task.canvas t2
     = updated (UpdateTaskRequest.canvas req2)
               (updated (UpdateTaskRequest.canvas req1) (Task.canvas t))
  /\ Task.id t2 = Task.id t
  /\ Task.startTime t2 = Task.startTime t.
Proof.
  intros Hg U1 U2.
  destruct (update_task_returns _ _ _ _ _ _ Hg U1)
    as (G1 & i1 & st1 & n1 & s1 & p1 & u1 & l1 & _ & ss1 & c1 & _).
  destruct (update_task_returns _ _ _ _ _ _ G1 U2)
    as (_ & i2 & st2 & n2 & s2 & p2 & u2 & l2 & _ & ss2 & c2 & _).
  rewrite n2, s2, p2, u2, l2, ss2, c2, i2, st2.
  rewrite n1, s1, p1, u1, l1, ss1, c1, i1, st1.
  repeat split; reflexivity.
Qed.

End Routes.

(* ------------------------------------------------------------------ *)
(** ** The routes at work                                              *)
(* ------------------------------------------------------------------ *)

Lemma create_in_empty_store :
  POST_api_tasks hex24_of_str hex24_str midnight body0 w0 = (Ok task1, w1).
Proof. reflexivity. Qed.

(** C1 at work: the four default steps of a task created without steps. *)
Lemma create_task_defaults_witness :
  CreateTaskRequest.model_validate body0 = Some req0
  /\ hex24_of_str (hex24_str (new_ObjectId (db_task w0)))
     = Some (new_ObjectId (db_task w0))
  /\ exists t w',
       POST_api_tasks hex24_of_str hex24_str midnight body0 w0 = (Ok t, w')
       /\ map Step.name (Task.steps t)
          = ["Analyze Data"; "Write Summary"; "Gen Charts"; "Final Assembly"].
Proof.
  split; [reflexivity|]. split; [reflexivity|].
  destruct (create_task_defaults hex24_of_str hex24_str midnight
              body0 req0 w0 eq_refl eq_refl)
    as (t & w' & Hp & _ & _ & _ & _ & _ & _ & _ & Hd & _).
  exists t, w'. split; [exact Hp|].
  exact (proj1 (Hd (or_introl eq_refl))).
Defined.

(** C2 as stated fails: the replacement is all that is left of the logs. *)
Lemma append_lost_under_replacement :
  exists t' w',
    get_task hex24_of_str hex24_str id1 w1 = (Ok task1, w1)
    /\ update_task hex24_of_str hex24_str midnight id1
         (logs_and_append_log ["replaced"] "step 1 done") w1 = (Ok t', w')
    /\ Task.logs t' = ["replaced"]
    /\ ~ In "step 1 done" (Task.logs t').
Proof.
  eexists _, _. split; [reflexivity|]. split; [reflexivity|].
  split; [reflexivity|]. simpl. intros [H|[]]. discriminate.
Qed.

Lemma logs_replacement_wins_witness :
  hex24_of_str id1 = Some 1%N
  /\ lookup 1%N (db_task w1) = Some (Doc.of_Task task1)
  /\ (exists d' r w',
        update_task hex24_of_str hex24_str midnight id1
          (logs_and_append_log ["replaced"] "step 1 done") w1 = (r, w')
        /\ lookup 1%N (db_task w') = Some d'
        /\ Doc.logs d' = Val ["replaced"]
        /\ (forall t', r = Ok t' -> Task.logs t' = ["replaced"]))
  /\ (exists w',
        update_task hex24_of_str hex24_str midnight id1
          (logs_and_append_log ["replaced"] "step 1 done") w_null_logs
        = (Err WriteError, w')
        /\ db_task w' = db_task w_null_logs).
Proof.
  split; [reflexivity|]. split; [reflexivity|]. split.
  - destruct (logs_replacement_wins hex24_of_str hex24_str midnight id1
                (logs_and_append_log ["replaced"] "step 1 done") w1
                1%N (Doc.of_Task task1) ["replaced"] "step 1 done"
                eq_refl eq_refl eq_refl eq_refl)
      as (Hok & _ & _).
    assert (Hne : Doc.logs (Doc.of_Task task1) <> Null) by discriminate.
    destruct (Hok (or_introl Hne))
      as (d' & r & w' & Hu & Hd' & Hl & _ & Ht).
    exists d', r, w'. repeat split; assumption.
  - destruct (logs_replacement_wins hex24_of_str hex24_str midnight id1
                (logs_and_append_log ["replaced"] "step 1 done") w_null_logs
                1%N _ ["replaced"] "step 1 done"
                eq_refl eq_refl eq_refl eq_refl)
      as (_ & _ & Hno).
    assert (Hne : "step 1 done" <> EmptyString) by discriminate.
    destruct (Hno eq_refl Hne) as (w' & Hu & Hdb & _).
    exists w'. split; assumption.
Defined.

Lemma update_changes_only_present_fields_witness :
  get_task hex24_of_str hex24_str id1 w1 = (Ok task1, w1)
  /\ exists t' w',
       update_task hex24_of_str hex24_str midnight id1
         (only_status "running") w1 = (Ok t', w')
       /\ Task.status t' = "running"
       /\ Task.name t' = "Quarterly report"
       /\ Task.steps t' = default_steps
       /\ Task.canvas t' = []
       /\ Task.logs t' = ["Task created"].
Proof.
  split; [reflexivity|].
  destruct (update_changes_only_present_fields hex24_of_str hex24_str midnight
              id1 (only_status "running") w1 task1 eq_refl)
    as (_ & _ & H).
  destruct (H "running" eq_refl)
    as (t' & w' & Hu & Hs & Hn & Hss & Hc & Hl & _).
  exists t', w'. repeat split; assumption.
Defined.

(** C4 as stated fails on the empty string: nothing is appended. *)
Lemma empty_append_log_appends_nothing :
  exists t' w',
    get_task hex24_of_str hex24_str id1 w1 = (Ok task1, w1)
    /\ update_task hex24_of_str hex24_str midnight id1
         (only_append_log EmptyString) w1 = (Ok t', w')
    /\ Task.logs task1 = ["Task created"]
    /\ Task.logs t' = ["Task created"]
    /\ Task.logs t' <> (Task.logs task1 ++ [EmptyString])%list.
Proof.
  eexists _, _. split; [reflexivity|]. split; [reflexivity|].
  split; [reflexivity|]. split; [reflexivity|]. discriminate.
Qed.

(** C4 at work, on the logs of the specification's example. *)
Lemma append_log_appends_witness :
  get_task hex24_of_str hex24_str id1 w1 = (Ok task1, w1)
  /\ exists t' w',
       update_task hex24_of_str hex24_str midnight id1
         (only_append_log "step 1 done") w1 = (Ok t', w')
       /\ Task.logs t' = ["Task created"; "step 1 done"].
Proof.
  split; [reflexivity|].
  destruct (append_log_appends hex24_of_str hex24_str midnight id1
              (only_append_log "step 1 done") w1 task1 "step 1 done"
              eq_refl eq_refl eq_refl)
    as (Htot & Hlogs).
  destruct (Htot eq_refl eq_refl) as (t' & w' & Hu).
  exists t', w'. split; [exact Hu|].
  apply (proj1 (Hlogs t' w' Hu)). discriminate.
Defined.

(** C5 as stated fails at creation: a task-level progress of -1 in the body
    is dropped, the task is created and stored. *)
Lemma create_ignores_task_progress :
  exists t w',
    POST_api_tasks hex24_of_str hex24_str midnight body_with_progress w0
    = (Ok t, w')
    /\ Task.progress t = 0%Z
    /\ db_task w' <> db_task w0.
Proof.
  eexists _, _. split; [reflexivity|]. split; [reflexivity|]. discriminate.
Qed.

Lemma progress_bounds_checked_witness :
  In (-1)%Z [-1; 101]%Z /\ In 100%Z [0; 100]%Z
  /\ PATCH_api_tasks hex24_of_str hex24_str midnight id1
       (mk_body (only_progress (-1)) []) w1
     = (Err RequestValidationError, w1)
  /\ exists t' w',
       PATCH_api_tasks hex24_of_str hex24_str midnight id1
         (mk_body (only_progress 100) []) w1 = (Ok t', w')
       /\ Task.progress t' = 100%Z.
Proof.
  assert (Hbad : In (-1)%Z [-1; 101]%Z) by (simpl; auto).
  assert (Hok : In 100%Z [0; 100]%Z) by (simpl; auto).
  split; [exact Hbad|]. split; [exact Hok|].
  destruct (progress_bounds_checked hex24_of_str hex24_str midnight
              (-1)%Z 100%Z Hbad Hok)
    as (_ & Hrej & _ & _ & _ & _ & Hacc & _ & _).
  split.
  - apply Hrej. reflexivity.
  - apply (Hacc id1 w1 task1). reflexivity.
Defined.

Lemma unknown_and_malformed_ids_witness :
  (exists e w',
     Not_Found e = true
     /\ get_task hex24_of_str hex24_str id2 w1 = (Err e, w1)
     /\ update_task hex24_of_str hex24_str midnight id2
          (only_status "running") w1 = (Err e, w')
     /\ db_task w' = db_task w1)
  /\ (exists e w',
        Bad_Request e = true
        /\ get_task hex24_of_str hex24_str "not-an-id" w1 = (Err e, w1)
        /\ update_task hex24_of_str hex24_str midnight "not-an-id"
             (only_status "running") w1 = (Err e, w')
        /\ db_task w' = db_task w1).
Proof.
  split.
  - apply (proj1 (unknown_and_malformed_ids hex24_of_str hex24_str midnight
                    id2 (only_status "running") w1) 2%N);
      reflexivity.
  - apply (proj2 (unknown_and_malformed_ids hex24_of_str hex24_str midnight
                    "not-an-id" (only_status "running") w1));
      reflexivity.
Defined.

(** C7 at work: capitals are lower-cased and rule 1 masks rule 2; a text
    with no keyword is echoed as it was given. *)
Lemma chat_rules_witness :
  ChatMessage.role (user_says "OK I'M READY, all metrics") = "user"
  /\ ChatMessage.role (user_says "Hello There") = "user"
  /\ (exists resp w',
        chat midnight
          (ChatRequest.mk ([] ++ [user_says "OK I'M READY, all metrics"])) w0
        = (Ok resp, w')
        /\ ChatResponse.readyForTask resp = true
        /\ ChatMessage.content (ChatResponse.message resp)
           = "Spec looks good. Click Create Task to start the pipeline.")
  /\ (exists resp w',
        chat midnight
          (ChatRequest.mk ([user_says "OK I'M READY, all metrics"]
                           ++ [user_says "Hello There"])) w0
        = (Ok resp, w')
        /\ ChatResponse.readyForTask resp = false
        /\ ChatMessage.content (ChatResponse.message resp)
           = "Got it: Hello There. Which metrics and time period should we use?").
Proof.
  split; [reflexivity|]. split; [reflexivity|]. split.
  - destruct (chat_rules midnight []
                (user_says "OK I'M READY, all metrics") w0 eq_refl)
      as (resp & w' & Hc & _ & H1 & _).
    exists resp, w'. split; [exact Hc|].
    apply H1. left.
    exists "OK I'M ", "READY", ", all metrics".
    split; [reflexivity|].
    simpl. repeat split; right; reflexivity.
  - destruct (chat_rules midnight [user_says "OK I'M READY, all metrics"]
                (user_says "Hello There") w0 eq_refl)
      as (resp & w' & Hc & _ & _ & _ & H3).
    exists resp, w'. split; [exact Hc|].
    apply H3.
    + intros [H|H];
        [apply (proj2 (str_in_lower_iff "ready" _ eq_refl)) in H
        |apply (proj2 (str_in_lower_iff "create" _ eq_refl)) in H];
        discriminate H.
    + intros [H|H];
        [apply (proj2 (str_in_lower_iff "metrics" _ eq_refl)) in H
        |apply (proj2 (str_in_lower_iff "period" _ eq_refl)) in H];
        discriminate H.
Defined.

Lemma chat_metrics_for_Q4 :
  decide (Some (user_says "I want metrics for Q4")) = (extensions_reply, false).
Proof. reflexivity. Qed.

Lemma chat_rule1_masks_rule2 :
  decide (Some (user_says "Create it with ALL METRICS for the period"))
  = (ready_reply, true).
Proof. reflexivity. Qed.


Lemma update_keeps_id_and_startTime_witness :
  get_task hex24_of_str hex24_str id1 w1 = (Ok task1, w1)
  /\ exists t' w',
       update_task hex24_of_str hex24_str midnight id1
         (only_status "complete") w1 = (Ok t', w')
       /\ Task.id t' = Some id1
       /\ Task.startTime t' = Some (midnight 0).
Proof.
  split; [reflexivity|].
  destruct (update_keeps_id_and_startTime hex24_of_str hex24_str midnight id1
              (only_status "complete") w1 task1 eq_refl)
    as (Htot & Hsame & _).
  destruct (Htot eq_refl eq_refl) as (t' & w' & Hu).
  exists t', w'. split; [exact Hu|]. exact (Hsame t' w' Hu).
Defined.

(** C10 as stated fails when the store refuses the push: after the logs
    were set to null, a request that gives null for name together with a
    non-empty append_log writes nothing, and the name stays as it was. *)
Lemma null_not_written_when_push_refused :
  update_task hex24_of_str hex24_str midnight id1 (only_logs Null) w1
  = (Err ValidationError, w_null_logs)
  /\ UpdateTaskRequest.validate (null_name_and_append "x") = true
  /\ UpdateTaskRequest.name (null_name_and_append "x") = Null
  /\ exists w' d',
       update_task hex24_of_str hex24_str midnight id1
         (null_name_and_append "x") w_null_logs = (Err WriteError, w')
       /\ lookup 1%N (db_task w') = Some d'
       /\ Doc.name d' = Val "Quarterly report"
       /\ Doc.name d' <> Null.
Proof.
  split; [reflexivity|]. split; [reflexivity|]. split; [reflexivity|].
  eexists _, _. split; [reflexivity|]. split; [reflexivity|].
  split; [reflexivity|discriminate].
Qed.

Lemma explicit_null_is_written_witness :
  hex24_of_str id1 = Some 1%N
  /\ lookup 1%N (db_task w1) = Some (Doc.of_Task task1)
  /\ (exists d' r w',
        update_task hex24_of_str hex24_str midnight id1
          null_name_and_steps w1 = (r, w')
        /\ lookup 1%N (db_task w') = Some d'
        /\ Doc.name d' = Null
        /\ Doc.steps d' = Null
        /\ Doc.logs d' = Val ["Task created"])
  /\ (exists w',
        update_task hex24_of_str hex24_str midnight id1
          (null_name_and_append "x") w_null_logs = (Err WriteError, w')
        /\ db_task w' = db_task w_null_logs).
Proof.
  split; [reflexivity|]. split; [reflexivity|]. split.
  - destruct (explicit_null_is_written hex24_of_str hex24_str midnight id1
                null_name_and_steps w1 1%N (Doc.of_Task task1)
                eq_refl eq_refl)
      as (Hok & _).
    assert (Hne : Doc.logs (Doc.of_Task task1) <> Null) by discriminate.
    destruct (Hok (or_introl Hne))
      as (d' & r & w' & Hu & Hd' & (Hn & _ & _ & _ & _ & _ & Hs & _)
          & (_ & _ & _ & _ & _ & _ & _ & _ & Hl)).
    exists d', r, w'. repeat split; auto.
  - destruct (explicit_null_is_written hex24_of_str hex24_str midnight id1
                (null_name_and_append "x") w_null_logs 1%N _
                eq_refl eq_refl)
      as (_ & Hno).
    destruct (Hno "x" eq_refl eq_refl) as (w' & Hu & Hdb & _).
    exists w'. split; assumption.
Defined.

(** A null on a key that [Task] does not take as null is stored all the
    same, and the task no longer reads back. *)
Lemma null_steps_break_the_read :
  exists w',
    update_task hex24_of_str hex24_str midnight id1 null_name_and_steps w1
    = (Err ValidationError, w')
    /\ get_task hex24_of_str hex24_str id1 w' = (Err ValidationError, w').
Proof. eexists. split; reflexivity. Qed.

(* ------------------------------------------------------------------ *)
(** ** Further properties at work                                      *)
(* ------------------------------------------------------------------ *)

Lemma update_answers_as_next_read_witness :
  let U := update_task hex24_of_str hex24_str midnight id1
             null_name_and_steps w1 in
  get_task hex24_of_str hex24_str id1 w1 = (Ok task1, w1)
  /\ fst U = Err ValidationError
  /\ get_task hex24_of_str hex24_str id1 (snd U) = (fst U, snd U).
Proof.
  intros U. split; [reflexivity|]. split; [reflexivity|].
  apply (update_answers_as_next_read hex24_of_str hex24_str midnight id1
           null_name_and_steps w1 task1 (fst U) (snd U));
    reflexivity.
Defined.

Lemma update_without_keys_is_a_read_witness :
  Doc.nonempty (updates_of (only_append_log EmptyString)) = false
  /\ pushes (only_append_log EmptyString) = None
  /\ update_task hex24_of_str hex24_str midnight id1
       (only_append_log EmptyString) w1
     = (Ok task1, w1).
Proof.
  split; [reflexivity|]. split; [reflexivity|].
  rewrite (update_without_keys_is_a_read hex24_of_str hex24_str midnight id1
             (only_append_log EmptyString) w1 eq_refl eq_refl).
  reflexivity.
Defined.

Lemma null_on_required_key_breaks_task_witness :
  get_task hex24_of_str hex24_str id1 w1 = (Ok task1, w1)
  /\ keeps_shape (only_name Null) = false
  /\ exists w',
       update_task hex24_of_str hex24_str midnight id1 (only_name Null) w1
       = (Err ValidationError, w')
       /\ get_task hex24_of_str hex24_str id1 w' = (Err ValidationError, w').
Proof.
  split; [reflexivity|]. split; [reflexivity|].
  destruct (null_on_required_key_breaks_task hex24_of_str hex24_str midnight
              id1 (only_name Null) w1 task1 eq_refl eq_refl)
    as (w' & U & G & _).
  exists w'. split; assumption.
Defined.

Lemma create_keeps_existing_tasks_witness :
  POST_api_tasks hex24_of_str hex24_str midnight body_forecast w1
  = (Ok task2, w2)
  /\ get_task hex24_of_str hex24_str id1 w1 = (Ok task1, w1)
  /\ get_task hex24_of_str hex24_str id1 w2 = (Ok task1, w2)
  /\ length (db_task w2) = S (length (db_task w1)).
Proof.
  destruct (create_keeps_existing_tasks hex24_of_str hex24_str midnight
              body_forecast w1 (Ok task2) w2 eq_refl)
    as (_ & Hread & Hlen).
  split; [reflexivity|]. split; [reflexivity|].
  split; [apply Hread; reflexivity|apply (Hlen task2); reflexivity].
Defined.

Lemma create_then_read_witness :
  CreateTaskRequest.model_validate body_forecast = Some req_forecast
  /\ hex24_of_str (hex24_str (new_ObjectId (db_task w1)))
     = Some (new_ObjectId (db_task w1))
  /\ exists t w' tid,
       POST_api_tasks hex24_of_str hex24_str midnight body_forecast w1
       = (Ok t, w')
       /\ Task.id t = Some tid
       /\ get_task hex24_of_str hex24_str tid w' = (Ok t, w').
Proof.
  split; [reflexivity|]. split; [reflexivity|].
  destruct (create_then_read hex24_of_str hex24_str midnight body_forecast
              req_forecast w1 eq_refl eq_refl)
    as (t & w' & tid & Hp & Hi & Hg & _).
  exists t, w', tid. repeat split; assumption.
Defined.

Lemma update_touches_one_document_witness :
  let U := update_task hex24_of_str hex24_str midnight id1
             (only_status "running") w2 in
  fst U = Ok task1_running
  /\ map fst (db_task (snd U)) = [1%N; 2%N]
  /\ lookup 2%N (db_task (snd U)) = Some (Doc.of_Task task2).
Proof.
  intros U. split; [reflexivity|].
  destruct (update_touches_one_document hex24_of_str hex24_str midnight id1
              (only_status "running") w2 (fst U) (snd U) eq_refl)
    as (Hids & Hother & _).
  split; [exact Hids|]. apply Hother. discriminate.
Defined.

Lemma update_stamps_updated_at_witness :
  get_task hex24_of_str hex24_str id1 w1 = (Ok task1, w1)
  /\ exists d' r w',
       update_task hex24_of_str hex24_str seconds id1
         (logs_and_append_log ["replaced"] "step 1 done") w1 = (r, w')
       /\ lookup 1%N (db_task w') = Some d'
       /\ Doc.updated_at d' = Val "2025-01-01T00:00:02+00:00"
       /\ ticks w' = 3.
Proof.
  split; [reflexivity|].
  destruct (update_stamps_updated_at hex24_of_str hex24_str seconds id1
              (logs_and_append_log ["replaced"] "step 1 done") w1 task1
              eq_refl)
    as (o & d & d' & r & w' & Ho & Hd & Hu & Hd' & Hs & Ht).
  injection Ho as <-.
  exists d', r, w'. repeat split; assumption.
Defined.

Lemma answered_tasks_in_bounds_witness :
  get_task hex24_of_str hex24_str id1 w1 = (Ok task1, w1)
  /\ in_bounds task1.
Proof.
  split; [reflexivity|].
  apply (proj1 (answered_tasks_in_bounds hex24_of_str hex24_str midnight
                  first_documents) id1 w1 task1 w1).
  reflexivity.
Defined.

Lemma appends_accumulate_witness :
  get_task hex24_of_str hex24_str id1 w1 = (Ok task1, w1)
  /\ exists t1 w' t2 w'',
       update_task hex24_of_str hex24_str midnight id1
         (only_append_log "fetched") w1 = (Ok t1, w')
       /\ update_task hex24_of_str hex24_str midnight id1
            (only_append_log "summarised") w' = (Ok t2, w'')
       /\ Task.logs t2 = ["Task created"; "fetched"; "summarised"].
Proof.
  split; [reflexivity|].
  destruct (appends_accumulate hex24_of_str hex24_str midnight id1
              (only_append_log "fetched") (only_append_log "summarised")
              w1 task1 "fetched" "summarised"
              eq_refl eq_refl eq_refl eq_refl eq_refl eq_refl eq_refl
              eq_refl ltac:(discriminate) eq_refl ltac:(discriminate))
    as (t1 & w' & t2 & w'' & U1 & U2 & _ & L2).
  exists t1, w', t2, w''. repeat split; assumption.
Defined.

Lemma set_update_is_idempotent_witness :
  let U := update_task hex24_of_str hex24_str midnight id1
             (only_status "running") w1 in
  get_task hex24_of_str hex24_str id1 w1 = (Ok task1, w1)
  /\ pushes (only_status "running") = None
  /\ U = (Ok task1_running, snd U)
  /\ exists w'',
       update_task hex24_of_str hex24_str midnight id1
         (only_status "running") (snd U) = (Ok task1_running, w'').
Proof.
  intros U. split; [reflexivity|]. split; [reflexivity|].
  split; [reflexivity|].
  apply (set_update_is_idempotent hex24_of_str hex24_str midnight id1
           (only_status "running") w1 task1 task1_running (snd U));
    reflexivity.
Defined.

Lemma list_tasks_all_or_nothing_witness :
  fst (list_tasks hex24_str first_documents 50 w2) = Ok [task1; task2]
  /\ map Task.id [task1; task2] = [Some id1; Some id2]
  /\ fst (list_tasks hex24_str first_documents 50 w_null_name)
     = Err ValidationError.
Proof.
  split; [reflexivity|]. split.
  - destruct (proj1 (proj2 (list_tasks_all_or_nothing hex24_str
                              first_documents 50 w2))
                [task1; task2] eq_refl)
      as (_ & Hids & _).
    exact Hids.
  - apply (proj1 (proj2 (proj2 (list_tasks_all_or_nothing hex24_str
                                  first_documents 50 w_null_name)))
             1%N (snd (1%N, match db_task w_null_name with
                            | (_, d) :: _ => d
                            | [] => Doc.empty
                            end)) ValidationError).
    + left. reflexivity.
    + reflexivity.
Defined.

Lemma null_on_required_key_breaks_listing_witness :
  let U := update_task hex24_of_str hex24_str midnight id1
             (only_name Null) w2 in
  get_task hex24_of_str hex24_str id1 w2 = (Ok task1, w2)
  /\ fst (list_tasks hex24_str first_documents 50 w2) = Ok [task1; task2]
  /\ fst (list_tasks hex24_str first_documents 50 (snd U))
     = Err ValidationError.
Proof.
  intros U. split; [reflexivity|]. split; [reflexivity|].
  apply (null_on_required_key_breaks_listing hex24_of_str hex24_str midnight
           first_documents id1 (only_name Null) w2 task1 (fst U) (snd U) 50);
    try reflexivity.
  intros o d Ho Hd. injection Ho as <-.
  vm_compute in Hd. injection Hd as <-.
  left. reflexivity.
Defined.

Lemma ready_exactly_on_rule_1_witness :
  exists resp w',
    chat midnight (ChatRequest.mk [user_says "Already done"]) w0
    = (Ok resp, w')
    /\ ChatResponse.readyForTask resp = true.
Proof.
  destruct (ready_exactly_on_rule_1 midnight
              (ChatRequest.mk [user_says "Already done"]) w0)
    as (resp & w' & Hc & Hiff).
  exists resp, w'. split; [exact Hc|].
  apply Hiff. exists [], (user_says "Already done"), "al", " done".
  split; [reflexivity|]. split; [reflexivity|]. left. reflexivity.
Defined.

Lemma update_refuses_values_outside_models_witness :
  PATCH_api_tasks hex24_of_str hex24_str midnight id1
    (mk_body (only_canvas [heading 4]) []) w1
  = (Err RequestValidationError, w1)
  /\ exists t' w',
       PATCH_api_tasks hex24_of_str hex24_str midnight id1
         (mk_body (only_canvas [heading 3]) []) w1 = (Ok t', w').
Proof.
  split.
  - apply (update_refuses_values_outside_models hex24_of_str hex24_str
             midnight id1 (mk_body (only_canvas [heading 4]) []) w1).
    right. right. right.
    exists [heading 4], (heading 4),
      (BlockMetadata.mk (Some 4%Z) None None None None), 4%Z.
    split; [reflexivity|]. split; [left; reflexivity|].
    split; [reflexivity|]. split; [reflexivity|]. right. reflexivity.
  - eexists _, _. reflexivity.
Defined.

Lemma create_needs_a_name_witness :
  POST_api_tasks hex24_of_str hex24_str midnight
    (mk_body (CreateTaskRequest.mk_keys Unset (Val "Ann") Unset Unset) []) w0
  = (Err RequestValidationError, w0)
  /\ exists t w',
       POST_api_tasks hex24_of_str hex24_str midnight body0 w0 = (Ok t, w')
       /\ Task.name t = "Quarterly report"
       /\ Task.user t = "You"
       /\ Task.llm t = "Claude Sonnet 4.5".
Proof.
  split.
  - apply (proj1 (create_needs_a_name hex24_of_str hex24_str midnight
                    (mk_body (CreateTaskRequest.mk_keys Unset (Val "Ann")
                                                        Unset Unset) [])
                    w0)).
    left. reflexivity.
  - apply (proj2 (create_needs_a_name hex24_of_str hex24_str midnight
                    body0 w0) "Quarterly report");
      reflexivity.
Defined.

Lemma update_answers_task_iff_shape_kept_witness :
  get_task hex24_of_str hex24_str id1 w1 = (Ok task1, w1)
  /\ UpdateTaskRequest.validate (only_status "running") = true
  /\ exists t' w',
       update_task hex24_of_str hex24_str midnight id1
         (only_status "running") w1 = (Ok t', w').
Proof.
  split; [reflexivity|]. split; [reflexivity|].
  apply (proj1 (update_answers_task_iff_shape_kept hex24_of_str hex24_str
                  midnight id1 (only_status "running") w1 task1
                  eq_refl eq_refl)).
  reflexivity.
Defined.

Lemma later_update_wins_witness :
  let U1 := update_task hex24_of_str hex24_str midnight id1
              (only_status "running") w1 in
  let U2 := update_task hex24_of_str hex24_str midnight id1
              (only_status "complete") (snd U1) in
  get_task hex24_of_str hex24_str id1 w1 = (Ok task1, w1)
  /\ exists t2, fst U2 = Ok t2
                /\ Task.status t2 = "complete"
                /\ Task.name t2 = "Quarterly report".
Proof.
  intros U1 U2. split; [reflexivity|].
  eexists. split; [reflexivity|].
  destruct (later_update_wins hex24_of_str hex24_str midnight id1
              (only_status "running") (only_status "complete")
              w1 (snd U1) (snd U2) task1 task1_running _
              eq_refl eq_refl eq_refl)
    as (Hn & Hs & _).
  split; [exact Hs|exact Hn].
Defined.
